(** * Cosmic Cash local server: the request handler of [serve.js]

    A shallow embedding of the two variants of the development server found
    in the repository (the current [serve.js], whose static resolver tries
    fallback candidates below the vs40cosmiccash asset tree, and the earlier
    variant that resolves a single file), together with the properties of
    the request router and of the static file resolver.

    Conventions of the embedding.
    - JavaScript strings are [string] (sequences of 8-bit characters); the
      operations used by the server ([includes], [startsWith], [slice],
      [split], [replace] with an anchored pattern, [||]) are defined below
      with the JavaScript semantics on that representation.
    - The handler reads three pieces of the outside world: the module-level
      cache slots written once by [loadMockResponses], the file system
      (through [fs.stat] and [fs.createReadStream]) and the clock
      ([Date.now]).  They are explicit arguments: [Env] and [now].
    - [res] is built functionally: a [Response] carries the status code, the
      headers set with [res.setHeader] and the body given to [res.end] or
      piped from the read stream.  Headers that Node adds by itself (Date,
      Connection, ...) are not part of it.
    - [path.join], [path.normalize] and [path.extname] belong to the Node
      runtime; they are modelled after [path.posix] (a POSIX host), on the
      segments of a path rather than character by character.
    - The file system is a finite map from absolute paths to what [fs.stat]
      reports there; a regular file can be read, and it does not change
      between [fs.stat] and the read stream.  No operation of the handler
      throws on the inputs of the model, so the [catch] branch (status 500)
      has no counterpart here. *)

From Stdlib Require Import ZArith Ascii String DecimalString DecimalZ DecimalPos.
From stdpp Require Import base gmap strings list.
From Equations Require Import Equations.

(** ** JavaScript string operations *)

Module JsString.

(** [s.startsWith(p)] *)
Fixpoint startsWith (s p : string) {struct p} : bool :=
  match p with
  | EmptyString => true
  | String c p' =>
      match s with
      | EmptyString => false
      | String d s' => if Ascii.eqb c d then startsWith s' p' else false
      end
  end.

(** [s.includes(p)] *)
Fixpoint includes (s p : string) : bool :=
  startsWith s p ||
  match s with
  | EmptyString => false
  | String _ s' => includes s' p
  end.

(** [s.slice(n)] for [0 <= n] *)
Fixpoint slice (s : string) (n : nat) : string :=
  match n, s with
  | O, _ => s
  | S _, EmptyString => EmptyString
  | S n', String _ s' => slice s' n'
  end.

(** [s.split(sep)] for a one-character separator; never the empty list *)
Fixpoint split (sep : ascii) (s : string) : list string :=
  match s with
  | EmptyString => [EmptyString]
  | String c s' =>
      if Ascii.eqb c sep then EmptyString :: split sep s'
      else match split sep s' with
           | [] => [String c EmptyString]
           | hd :: tl => String c hd :: tl
           end
  end.

(** [s.split(sep)[0]] *)
Definition split0 (sep : ascii) (s : string) : string :=
  match split sep s with
  | [] => EmptyString
  | hd :: _ => hd
  end.

(** [s.replace(/^\//, "")] *)
Definition stripLeadingSlash (s : string) : string :=
  match s with
  | String "/"%char s' => s'
  | _ => s
  end.

(** [x || d] where [x] is [null]/[undefined] or a string: the empty string
    is falsy as well. *)
Definition or (x : option string) (d : string) : string :=
  match x with
  | Some (String c s) => String c s
  | _ => d
  end.

(** [arr.join(sep)] *)
Fixpoint join (sep : string) (l : list string) : string :=
  match l with
  | [] => EmptyString
  | [x] => x
  | x :: l' => x +:+ sep +:+ join sep l'
  end.

(** The string that [+] gives for an integral number, e.g. the value of
    [Date.now()] (exact below 1e21, where JavaScript switches to the
    exponent notation). *)
Definition ofNumber (z : Z) : string := NilZero.string_of_int (Z.to_int z).

(** The number that a decimal numeral denotes, [Number(s)] on the strings
    that [ofNumber] produces. *)
Definition toNumber (s : string) : option Z :=
  match NilZero.int_of_string s with
  | Some d => Some (Z.of_int d)
  | None => None
  end.

(** Whether the character [c] occurs in [s]. *)
Fixpoint hasChar (c : ascii) (s : string) : bool :=
  match s with
  | EmptyString => false
  | String d s' => Ascii.eqb d c || hasChar c s'
  end.

(** Last character test, [s.charCodeAt(s.length - 1) === c]. *)
Fixpoint endsWithChar (c : ascii) (s : string) : bool :=
  match s with
  | EmptyString => false
  | String d EmptyString => Ascii.eqb d c
  | String _ s' => endsWithChar c s'
  end.

End JsString.

(** ** The Node [path] module (POSIX flavour) *)

Module NodePath.
Import JsString.

(** One step of [normalizeString]: [res] is the stack of segments kept so
    far, most recent first.  Empty segments and [.] are dropped; [..]
    removes the previous segment unless there is none or it is itself
    [..], in which case it is kept only for relative paths. *)
Definition normalizeStep (allowAboveRoot : bool)
    (res : list string) (seg : string) : list string :=
  if String.eqb seg "" || String.eqb seg "." then res
  else if String.eqb seg ".." then
    match res with
    | last :: res' =>
        if String.eqb last ".." then
          (if allowAboveRoot then seg :: res else res)
        else res'
    | [] => if allowAboveRoot then [seg] else []
    end
  else seg :: res.

Definition normalizeString (path : string) (allowAboveRoot : bool) : string :=
  join "/" (rev (fold_left (normalizeStep allowAboveRoot) (split "/" path) [])).

(** [path.normalize(p)] *)
Definition normalize (p : string) : string :=
  match p with
  | EmptyString => "."
  | _ =>
      let isAbsolute := startsWith p "/" in
      let trailingSeparator := endsWithChar "/" p in
      let path := normalizeString p (negb isAbsolute) in
      match path with
      | EmptyString =>
          if isAbsolute then "/"
          else if trailingSeparator then "./" else "."
      | _ =>
          let path := if trailingSeparator then path +:+ "/" else path in
          if isAbsolute then "/" +:+ path else path
      end
  end.

(** [path.join(...args)] *)
Definition join (args : list string) : string :=
  match filter (λ a, a ≠ "") args with
  | [] => "."
  | parts => normalize (JsString.join "/" parts)
  end.

(** Index of the last [.] of [s], if any. *)
Fixpoint lastDot (s : string) : option nat :=
  match s with
  | EmptyString => None
  | String c s' =>
      match lastDot s' with
      | Some i => Some (S i)
      | None => if Ascii.eqb c "." then Some 0 else None
      end
  end.

(** [path.extname(p)]: the extension of the last component of [p]
    (trailing separators ignored), from its last dot; empty when there is
    no dot, when the only dot leads the component, or for [..]. *)
Definition extname (p : string) : string :=
  match rev (filter (λ a, a ≠ "") (split "/" p)) with
  | [] => ""
  | base :: _ =>
      match lastDot base with
      | None => ""
      | Some 0 => ""
      | Some i => if String.eqb base ".." then "" else slice base i
      end
  end.

End NodePath.

Import JsString.

(** ** The outside world of the handler *)

(** What [fs.stat] can report about a path that exists: a regular file with
    its contents, or anything else (directory, socket, ...).  A path absent
    from the map makes [fs.stat] fail. *)
Inductive FsNode : Type :=
  | File (content : string)
  | NotFile.

(** The four module-level slots, [null] until [loadMockResponses] fills them. *)
Record Cache : Type := mkCache {
  gameServiceBody : option string;
  reloadBalanceBody : option string;
  saveSettingsBody : option string;
  statsBody : option string
}.

Record Env : Type := mkEnv {
  ROOT : string;                 (* __dirname *)
  files : gmap string FsNode;    (* the file system, by absolute path *)
  cache : Cache
}.

Record Request : Type := mkRequest {
  method : string;
  url : option string
}.

Record Response : Type := mkResponse {
  statusCode : nat;
  headers : gmap string string;
  body : string
}.

Definition MIME : gmap string string :=
  list_to_map
    [ (".html", "text/html"); (".htm", "text/html"); (".do", "text/html");
      (".js", "application/javascript"); (".json", "application/json");
      (".css", "text/css"); (".png", "image/png"); (".jpg", "image/jpeg");
      (".jpeg", "image/jpeg"); (".gif", "image/gif"); (".ico", "image/x-icon");
      (".svg", "image/svg+xml"); (".woff", "font/woff");
      (".woff2", "font/woff2"); (".mp3", "audio/mpeg"); (".ogg", "audio/ogg");
      (".ttf", "font/ttf") ].

(** ** Startup: [loadMockResponses] *)

Definition DEMO (root : string) : string :=
  NodePath.join [root; "demogamesfree.pragmaticplay.net"; "gs2c"].

Definition existsSync (fsys : gmap string FsNode) (p : string) : bool :=
  bool_decide (is_Some (fsys !! p)).

(** [fs.readFileSync(p, "utf8")]; [None] stands for the exception raised when
    [p] cannot be read as a file. *)
Definition readFileSync (fsys : gmap string FsNode) (p : string) : option string :=
  match fsys !! p with
  | Some (File content) => Some content
  | _ => None
  end.

(** One line of the [try] block: the new value of the slot, or [None] when
    the line throws. *)
Definition loadSlot (fsys : gmap string FsNode) (p : string) : option (option string) :=
  if existsSync fsys p then
    match readFileSync fsys p with
    | Some content => Some (Some content)
    | None => None
    end
  else Some None.

(** The slots are assigned in order; an exception leaves the remaining ones
    at [null]. *)
Definition loadMockResponses (root : string) (fsys : gmap string FsNode) : Cache :=
  let gsPath := NodePath.join [DEMO root; "ge"; "v4"; "gameService.html"] in
  let rbPath := NodePath.join [DEMO root; "reloadBalance.do"] in
  let ssPath := NodePath.join [DEMO root; "saveSettings.do"] in
  let stPath := NodePath.join [DEMO root; "stats.do"] in
  match loadSlot fsys gsPath with
  | None => mkCache None None None None
  | Some gs =>
      match loadSlot fsys rbPath with
      | None => mkCache gs None None None
      | Some rb =>
          match loadSlot fsys ssPath with
          | None => mkCache gs rb None None
          | Some ss =>
              match loadSlot fsys stPath with
              | None => mkCache gs rb ss None
              | Some st => mkCache gs rb ss st
              end
          end
      end
  end.

(** ** Responses *)

(** [sendMock(res, body, contentType)] *)
Definition sendMock (body : string) (contentType : option string) : Response :=
  {| statusCode := 200;
     headers :=
       <["Access-Control-Allow-Origin" := "*"]>
         (<["Content-Type" := JsString.or contentType "application/x-www-form-urlencoded"]> ∅);
     body := JsString.or (Some body) "" |}.

(** [res.statusCode = 404; res.end("Not Found: " + pathname)] *)
Definition notFound (pathname : string) : Response :=
  {| statusCode := 404; headers := ∅; body := "Not Found: " +:+ pathname |}.

(** [res.statusCode = 403; res.end("Forbidden")] *)
Definition forbidden : Response :=
  {| statusCode := 403; headers := ∅; body := "Forbidden" |}.

(** Status 200, the content type of the extension, and the file piped into
    the response. *)
Definition sendFile (filePath content : string) : Response :=
  let ext := NodePath.extname filePath in
  {| statusCode := 200;
     headers := <["Content-Type" := JsString.or (MIME !! ext) "application/octet-stream"]> ∅;
     body := content |}.

(** [(req.url || "").split("?")[0] || "/"] *)
Definition pathnameOf (req : Request) : string :=
  JsString.or (Some (split0 "?" (JsString.or (url req) ""))) "/".

Definition isRoot (pathname : string) : bool :=
  String.eqb pathname "/" || String.eqb pathname "" || String.eqb pathname "/index.html".

Definition relPathOf (pathname : string) : string :=
  if isRoot pathname then "index.html" else stripLeadingSlash pathname.

(** The literal bodies of the mock rules.  [dq] is the double quote of the
    two JSON literals. *)
Definition dq : string := String "034"%char EmptyString.

Definition gameServiceFallback : string :=
  "balance=100000.00&balance_cash=100000.00&na=s".

Definition statsFallback : string :=
  "{" +:+ dq +:+ "error" +:+ dq +:+ ":0," +:+ dq +:+ "description" +:+ dq +:+ ":"
      +:+ dq +:+ "OK" +:+ dq +:+ "}".

Definition customizationsBody : string :=
  "{" +:+ dq +:+ "customizations" +:+ dq +:+ ":[]}".

Definition reloadBalanceFallback (now : Z) : string :=
  "balance_bonus=0.00&balance=100000.00&balance_cash=100000.00&stime=" +:+ ofNumber now.

(** ** The handler of [serve.js] *)

Module Serve.

Definition vsPrefix : string :=
  "demogamesfree.pragmaticplay.net/gs2c/common/v1/games-html5/games/vs/vs40cosmiccash/".

(** The list built on lines 106-125. *)
Definition relCandidates (relPath : string) : list string :=
  [relPath] ++
  (if startsWith relPath vsPrefix then
     let tail := slice relPath (String.length vsPrefix) in
     (if negb (startsWith tail "desktop/")
      then [vsPrefix +:+ "desktop/" +:+ tail] else []) ++
     (if negb (startsWith tail "desktop/game/")
      then
        let tailNoLeadingGame :=
          if startsWith tail "game/" then slice tail (String.length "game/") else tail in
        [vsPrefix +:+ "desktop/game/" +:+ tailNoLeadingGame]
      else [])
   else []).

(** [tryCandidate(index)], a closure over the request: the callback of
    [fs.stat] runs with the result of the lookup in [files].
    [cands !! index = None] is [index >= relCandidates.length]. *)
Section Resolver.
Context (e : Env) (pathname : string) (cands : list string).

Equations tryCandidate (index : nat) : Response by wf (length cands - index) lt :=
  tryCandidate index with Logic.inspect (cands !! index) := {
    | exist _ None _ => notFound pathname
    | exist _ (Some candidateRel) Hget =>
        let candidatePath := NodePath.join [ROOT e; candidateRel] in
        let normalized := NodePath.normalize candidatePath in
        if negb (startsWith normalized (ROOT e)) then forbidden
        else
          match files e !! candidatePath with
          | Some (File content) => sendFile candidatePath content
          | _ => tryCandidate (index + 1)
          end
  }.
Next Obligation. apply lookup_lt_Some in Hget. lia. Qed.
Next Obligation. apply lookup_lt_Some in Hget. lia. Qed.
End Resolver.

Definition handler (e : Env) (now : Z) (req : Request) : Response :=
  let pathname := pathnameOf req in
  if includes pathname "gameService" then
    sendMock (JsString.or (gameServiceBody (cache e)) gameServiceFallback) None
  else if includes pathname "reloadBalance.do" then
    sendMock (JsString.or (reloadBalanceBody (cache e)) (reloadBalanceFallback now)) None
  else if includes pathname "saveSettings.do" then
    sendMock (JsString.or (saveSettingsBody (cache e)) "") (Some "text/plain")
  else if includes pathname "stats.do" then
    sendMock (JsString.or (statsBody (cache e)) statsFallback) (Some "application/json")
  else if includes pathname "customizations.info" then
    sendMock customizationsBody (Some "application/json")
  else
    tryCandidate e pathname (relCandidates (relPathOf pathname)) 0.

End Serve.

(** ** The handler of the earlier variant (single candidate, no fallback)

    The second source file of the repository: the same server up to the
    mock rules, with a static part that resolves the primary path only. *)

Module Legacy.

Definition handler (e : Env) (now : Z) (req : Request) : Response :=
  let pathname := pathnameOf req in
  if includes pathname "gameService" then
    sendMock (JsString.or (gameServiceBody (cache e)) gameServiceFallback) None
  else if includes pathname "reloadBalance.do" then
    sendMock (JsString.or (reloadBalanceBody (cache e)) (reloadBalanceFallback now)) None
  else if includes pathname "saveSettings.do" then
    sendMock (JsString.or (saveSettingsBody (cache e)) "") (Some "text/plain")
  else if includes pathname "stats.do" then
    sendMock (JsString.or (statsBody (cache e)) statsFallback) (Some "application/json")
  else if includes pathname "customizations.info" then
    sendMock customizationsBody (Some "application/json")
  else
    let relPath := relPathOf pathname in
    let filePath := NodePath.join [ROOT e; relPath] in
    if negb (startsWith (NodePath.normalize filePath) (ROOT e)) then forbidden
    else
      match files e !! filePath with
      | Some (File content) => sendFile filePath content
      | _ => notFound pathname
      end.

End Legacy.


(** ** Vocabulary of the properties *)

(** The five mock rules, in the order in which the handler tests them. *)
Inductive MockRule : Type :=
  | GameService
  | ReloadBalance
  | SaveSettings
  | Stats
  | Customizations.

Definition mockRules : list MockRule :=
  [GameService; ReloadBalance; SaveSettings; Stats; Customizations].

Definition ruleSubstring (r : MockRule) : string :=
  match r with
  | GameService => "gameService"
  | ReloadBalance => "reloadBalance.do"
  | SaveSettings => "saveSettings.do"
  | Stats => "stats.do"
  | Customizations => "customizations.info"
  end.

Definition rank (r : MockRule) : nat :=
  match r with
  | GameService => 0
  | ReloadBalance => 1
  | SaveSettings => 2
  | Stats => 3
  | Customizations => 4
  end.

(** Classification as the specification words it: the first rule, in
    priority order, whose substring the path contains. *)
Definition classify (pathname : string) : option MockRule :=
  List.find (λ r, includes pathname (ruleSubstring r)) mockRules.

(** The response that the specification's table gives for a rule: status
    200, the rule's content type, the CORS header, and the rule's body. *)
Definition mockResponse (c : Cache) (now : Z) (r : MockRule) : Response :=
  match r with
  | GameService =>
      sendMock (JsString.or (gameServiceBody c) gameServiceFallback) None
  | ReloadBalance =>
      sendMock (JsString.or (reloadBalanceBody c) (reloadBalanceFallback now)) None
  | SaveSettings =>
      sendMock (JsString.or (saveSettingsBody c) EmptyString) (Some "text/plain")
  | Stats =>
      sendMock (JsString.or (statsBody c) statsFallback) (Some "application/json")
  | Customizations =>
      sendMock customizationsBody (Some "application/json")
  end.

(** "Cached body if loaded, else the fallback", read literally: any loaded
    body, the empty one included, is returned. *)
Definition cachedOrFallback (slot : option string) (fallback : string) : string :=
  match slot with
  | Some cached => cached
  | None => fallback
  end.

(** The containment check of both handlers, on one candidate. *)
Definition escapesRoot (root candidateRel : string) : bool :=
  negb (startsWith (NodePath.normalize (NodePath.join [root; candidateRel])) root).

(** One attempt of [tryCandidate], with the continuation made explicit. *)
Definition tryOne (e : Env) (candidateRel : string) (next : Response) : Response :=
  let candidatePath := NodePath.join [ROOT e; candidateRel] in
  let normalized := NodePath.normalize candidatePath in
  if negb (startsWith normalized (ROOT e)) then forbidden
  else
    match files e !! candidatePath with
    | Some (File content) => sendFile candidatePath content
    | _ => next
    end.

(** A candidate that passes the containment check but is not served:
    [fs.stat] fails or reports something else than a regular file. *)
Definition skipped (e : Env) (candidateRel : string) : Prop :=
  escapesRoot (ROOT e) candidateRel = false ∧
  ∀ content, files e !! NodePath.join [ROOT e; candidateRel] ≠ Some (File content).

(** The tail of an asset path without one leading [game/]. *)
Definition withoutLeadingGame (tail : string) : string :=
  if startsWith tail "game/" then slice tail (String.length "game/") else tail.

(** The candidate list with both fallbacks built from the unchanged tail. *)
Definition candidatesUnchangedTail (tail : string) : list string :=
  [Serve.vsPrefix +:+ tail] ++
  (if startsWith tail "desktop/" then [] else [Serve.vsPrefix +:+ "desktop/" +:+ tail]) ++
  (if startsWith tail "desktop/game/" then []
   else [Serve.vsPrefix +:+ "desktop/game/" +:+ tail]).

(** A path segment that [path.normalize] keeps as it is. *)
Definition cleanSegment (s : string) : Prop :=
  s ≠ "" ∧ s ≠ "." ∧ s ≠ ".." ∧ hasChar "/" s = false.

(** The shape of [__dirname]: an absolute path of clean segments, without a
    trailing separator ([/] itself when there is no segment). *)
Definition absoluteDir (root : string) : Prop :=
  ∃ segs, Forall cleanSegment segs ∧ root = "/" +:+ JsString.join "/" segs.

(** ** Sample environments *)

Definition noCache : Cache := mkCache None None None None.

Definition demoEnv : Env :=
  {| ROOT := "/srv/app";
     files := {[ "/srv/app/index.html" := File "<html></html>" ]};
     cache := noCache |}.

(** The asset tree holds [res.json] only below [desktop/]. *)
Definition assetEnv : Env :=
  {| ROOT := "/srv/app";
     files := {[ "/srv/app/" +:+ Serve.vsPrefix +:+ "desktop/res.json" := File "{}" ]};
     cache := noCache |}.

(** An installation whose saved [gameService.html] is an empty file. *)
Definition emptyMockFiles : gmap string FsNode :=
  {[ "/srv/app/demogamesfree.pragmaticplay.net/gs2c/ge/v4/gameService.html" := File "" ]}.

Definition emptyMockEnv : Env :=
  {| ROOT := "/srv/app";
     files := emptyMockFiles;
     cache := loadMockResponses "/srv/app" emptyMockFiles |}.

(** A directory beside the root whose name extends the root's. *)
Definition siblingEnv : Env :=
  {| ROOT := "/srv/app";
     files := {[ "/srv/app-data/key.txt" := File "secret" ]};
     cache := noCache |}.

(** ** Vocabulary of the further properties *)

(** The four files read at startup, as [loadMockResponses] names them. *)
Definition gsPath (root : string) : string :=
  NodePath.join [DEMO root; "ge"; "v4"; "gameService.html"].
Definition rbPath (root : string) : string :=
  NodePath.join [DEMO root; "reloadBalance.do"].
Definition ssPath (root : string) : string :=
  NodePath.join [DEMO root; "saveSettings.do"].
Definition stPath (root : string) : string :=
  NodePath.join [DEMO root; "stats.do"].

(** The files and the slots in the order of the [try] block. *)
Definition mockPaths (root : string) : list string :=
  [gsPath root; rbPath root; ssPath root; stPath root].

Definition cacheSlots (c : Cache) : list (option string) :=
  [gameServiceBody c; reloadBalanceBody c; saveSettingsBody c; statsBody c].

(** The slot that a rule answers from; the customizations rule has none. *)
Definition cachedSlot (c : Cache) (r : MockRule) : option string :=
  match r with
  | GameService => gameServiceBody c
  | ReloadBalance => reloadBalanceBody c
  | SaveSettings => saveSettingsBody c
  | Stats => statsBody c
  | Customizations => None
  end.

(** The server as it listens: the slots were loaded from the file system
    that the handler then resolves static files in. *)
Definition startServer (root : string) (fsys : gmap string FsNode) : Env :=
  {| ROOT := root; files := fsys; cache := loadMockResponses root fsys |}.

(** What a run of the resolver from index [k] ends in: the first candidate
    that is not skipped decides, at index [i]. *)
Definition decidedAt (e : Env) (cands : list string) (k i : nat) (cand : string) : Prop :=
  k ≤ i ∧ cands !! i = Some cand ∧
  ∀ j cj, k ≤ j < i → cands !! j = Some cj → skipped e cj.

(** A path none of whose segments is [..]. *)
Definition dotDotFree (p : string) : Prop :=
  Forall (λ seg, seg ≠ "..") (split "/" p).

(** The segments of a path that [path.normalize] keeps when none is [..]:
    all but the empty ones and [.]. *)
Definition keptSegments (p : string) : list string :=
  filter (λ seg, seg ≠ "" ∧ seg ≠ ".") (split "/" p).

(** The asset prefix without its final separator. *)
Definition vsDir : string :=
  "demogamesfree.pragmaticplay.net/gs2c/common/v1/games-html5/games/vs/vs40cosmiccash".

(** A relative path of clean segments, e.g. [css/site.css]. *)
Definition cleanPath (rel : list string) : Prop :=
  Forall cleanSegment rel ∧ rel ≠ [].

(** The saved mock files of a complete installation; [stats.do] is a
    directory in the second one. *)
Definition savedMockFiles : gmap string FsNode :=
  {[ "/srv/app/demogamesfree.pragmaticplay.net/gs2c/ge/v4/gameService.html" := File "na=s";
     "/srv/app/demogamesfree.pragmaticplay.net/gs2c/saveSettings.do" := File "ok";
     "/srv/app/demogamesfree.pragmaticplay.net/gs2c/stats.do" := File "{}" ]}.

Definition brokenMockFiles : gmap string FsNode :=
  {[ "/srv/app/demogamesfree.pragmaticplay.net/gs2c/ge/v4/gameService.html" := File "na=s";
     "/srv/app/demogamesfree.pragmaticplay.net/gs2c/reloadBalance.do" := NotFile;
     "/srv/app/demogamesfree.pragmaticplay.net/gs2c/stats.do" := File "{}" ]}.

Definition siteEnv : Env :=
  {| ROOT := "/srv/app";
     files := {[ "/srv/app/css/site.css" := File "body{}";
                 "/srv/app/img/LOGO.PNG" := File "png";
                 "/srv/app/docs" := NotFile;
                 "/srv/app/docs/index.html" := File "<html>docs</html>" ]};
     cache := noCache |}.

(** ** Evaluation on sample inputs *)

Example includes_substring : includes "/gs2c/ge/v4/gameService" "gameService" = true.
Proof. reflexivity. Qed.
Example split0_discards_query : split0 "?" "/page.html?ref=stats.do" = "/page.html".
Proof. reflexivity. Qed.
Example split0_empty : split0 "?" "" = "".
Proof. reflexivity. Qed.
Example join_escape :
  NodePath.join ["/srv/app"; "../../etc/passwd"] = "/etc/passwd".
Proof. reflexivity. Qed.
Example normalize_relative : NodePath.normalize "a/../../b/./c/" = "../b/c/".
Proof. reflexivity. Qed.
Example extname_json : NodePath.extname "/srv/app/a.b/res.json" = ".json".
Proof. reflexivity. Qed.
Example extname_hidden : NodePath.extname "/srv/app/.bashrc" = "".
Proof. reflexivity. Qed.
Example ofNumber_now : ofNumber 1730000000000 = "1730000000000".
Proof. reflexivity. Qed.

Example loadMockResponses_empty_file :
  loadMockResponses "/srv/app" emptyMockFiles = mkCache (Some "") None None None.
Proof. vm_compute. reflexivity. Qed.
Example handler_root :
  Serve.handler demoEnv 0 (mkRequest "GET" (Some "/")) =
  sendFile "/srv/app/index.html" "<html></html>".
Proof. vm_compute. reflexivity. Qed.
Example handler_missing :
  Serve.handler demoEnv 0 (mkRequest "GET" (Some "/x.js?v=2")) = notFound "/x.js".
Proof. vm_compute. reflexivity. Qed.
Example handler_traversal :
  Serve.handler demoEnv 0 (mkRequest "GET" (Some "/../../etc/passwd")) = forbidden.
Proof. vm_compute. reflexivity. Qed.
Example handler_desktop_fallback :
  Serve.handler assetEnv 0 (mkRequest "GET" (Some ("/" +:+ Serve.vsPrefix +:+ "res.json"))) =
  sendFile ("/srv/app/" +:+ Serve.vsPrefix +:+ "desktop/res.json") "{}".
Proof. vm_compute. reflexivity. Qed.
Example legacy_no_fallback :
  Legacy.handler assetEnv 0 (mkRequest "GET" (Some ("/" +:+ Serve.vsPrefix +:+ "res.json"))) =
  notFound ("/" +:+ Serve.vsPrefix +:+ "res.json").
Proof. vm_compute. reflexivity. Qed.
(** The containment check compares strings: a sibling directory whose name
    starts with the root's name passes it. *)
Example handler_sibling_prefix :
  Serve.handler siblingEnv 0 (mkRequest "GET" (Some "/../app-data/key.txt")) =
  sendFile "/srv/app-data/key.txt" "secret".
Proof. vm_compute. reflexivity. Qed.
Example sendFile_mime :
  headers (sendFile "/srv/app/index.html" "") !! "Content-Type" = Some "text/html".
Proof. vm_compute. reflexivity. Qed.
Example sendFile_unknown_extension :
  headers (sendFile "/srv/app/data.bin" "") !! "Content-Type" = Some "application/octet-stream".
Proof. vm_compute. reflexivity. Qed.

(** ** Facts about the string operations *)

Module JsStringFacts.

Lemma append_nil_l (b : string) : EmptyString +:+ b = b.
Proof. reflexivity. Qed.

Lemma append_cons (c : ascii) (a b : string) : String c a +:+ b = String c (a +:+ b).
Proof. reflexivity. Qed.

Lemma append_nil_r (a : string) : a +:+ EmptyString = a.
Proof. induction a as [|c a IH]; [reflexivity|]. rewrite append_cons. by rewrite IH. Qed.

Lemma append_assoc (a b c : string) : (a +:+ b) +:+ c = a +:+ (b +:+ c).
Proof.
  induction a as [|x a IH]; [reflexivity|].
  rewrite !append_cons. by rewrite IH.
Qed.

(** [startsWith] is the prefix test. *)
Lemma startsWith_spec (s p : string) :
  startsWith s p = true ↔ ∃ b, s = p +:+ b.
Proof.
  revert s. induction p as [|c p IH]; intros s; simpl.
  - split; [intros _; by exists s | done].
  - destruct s as [|d s].
    + split; [done | intros [b Hb]; rewrite append_cons in Hb; done].
    + destruct (Ascii.eqb c d) eqn:Hcd.
      * apply Ascii.eqb_eq in Hcd as ->. rewrite IH. split.
        -- intros [b ->]. by exists b.
        -- intros [b Hb]. rewrite append_cons in Hb. injection Hb as ->. by exists b.
      * apply Ascii.eqb_neq in Hcd. split; [done|].
        intros [b Hb]. rewrite append_cons in Hb. injection Hb as -> _. done.
Qed.

Lemma startsWith_app (p t : string) : startsWith (p +:+ t) p = true.
Proof. apply startsWith_spec. by exists t. Qed.

(** [includes] is substring containment: some text before, the pattern,
    some text after. *)
Lemma includes_spec (s p : string) :
  includes s p = true ↔ ∃ a b, s = a +:+ p +:+ b.
Proof.
  induction s as [|c s IH]; simpl.
  - rewrite orb_false_r, startsWith_spec. split.
    + intros [b Hb]. by exists EmptyString, b.
    + intros [[|x a] [b Hb]]; [by exists b | rewrite append_cons in Hb; done].
  - rewrite orb_true_iff, startsWith_spec, IH. split.
    + intros [[b Hb] | (a & b & ->)].
      * by exists EmptyString, b.
      * by exists (String c a), b.
    + intros [[|x a] [b Hb]].
      * left. by exists b.
      * right. rewrite append_cons in Hb. injection Hb as -> ->. by exists a, b.
Qed.

Lemma slice_app (p t : string) : slice (p +:+ t) (String.length p) = t.
Proof.
  induction p as [|c p IH]; [by destruct t | exact IH].
Qed.

Lemma split_nonempty (sep : ascii) (s : string) : split sep s ≠ [].
Proof.
  induction s as [|c s IH]; simpl; [done|].
  destruct (Ascii.eqb c sep); [done|]. by destruct (split sep s).
Qed.

(** Splitting at an occurrence of the separator. *)
Lemma split_app (sep : ascii) (a b : string) :
  split sep (a +:+ String sep b) = split sep a ++ split sep b.
Proof.
  induction a as [|c a IH].
  - rewrite append_nil_l. simpl. by rewrite Ascii.eqb_refl.
  - rewrite append_cons. simpl. rewrite IH.
    destruct (Ascii.eqb c sep); [done|].
    pose proof (split_nonempty sep a). by destruct (split sep a).
Qed.

(** A string free of the separator is a single piece. *)
Lemma split_free (sep : ascii) (s : string) :
  hasChar sep s = false → split sep s = [s].
Proof.
  induction s as [|c s IH]; simpl; [done|].
  intros [Hc Hs]%orb_false_iff. rewrite Hc, (IH Hs). done.
Qed.

Lemma split0_query (p q : string) :
  hasChar "?" p = false → split0 "?" (p +:+ String "?" q) = p.
Proof.
  intros Hp. unfold split0. rewrite split_app, (split_free _ _ Hp). done.
Qed.

Lemma split0_free (p : string) : hasChar "?" p = false → split0 "?" p = p.
Proof. intros Hp. unfold split0. by rewrite (split_free _ _ Hp). Qed.

Lemma includes_char (c : ascii) (s : string) :
  includes s (String c EmptyString) = hasChar c s.
Proof.
  induction s as [|d s IH]; [reflexivity|].
  simpl. rewrite IH, (Ascii.eqb_sym c d). by destruct (Ascii.eqb d c).
Qed.

(** [toNumber] reads back what [ofNumber] prints. *)
Lemma toNumber_ofNumber (z : Z) : toNumber (ofNumber z) = Some z.
Proof.
  unfold toNumber, ofNumber.
  rewrite NilZero.isi.
  - by rewrite DecimalZ.of_to.
  - destruct z as [|p|p]; simpl; [done| |done].
    intros [=H]. by apply DecimalPos.Unsigned.to_uint_nonnil in H.
  - destruct z as [|p|p]; simpl; [done|done|].
    intros [=H]. by apply DecimalPos.Unsigned.to_uint_nonnil in H.
Qed.

End JsStringFacts.

(** ** Facts about the path operations on clean absolute directories *)

Module NodePathFacts.
Import JsStringFacts NodePath.

Lemma normalizeStep_clean (a : bool) (res : list string) (s : string) :
  cleanSegment s → normalizeStep a res s = s :: res.
Proof.
  intros (H0 & H1 & H2 & _). unfold normalizeStep.
  apply String.eqb_neq in H0, H1, H2. by rewrite H0, H1, H2.
Qed.

Lemma fold_clean (a : bool) (l acc : list string) :
  Forall cleanSegment l → fold_left (normalizeStep a) l acc = rev l ++ acc.
Proof.
  intros Hl. revert acc. induction Hl as [|x l Hx _ IH]; intros acc; simpl; [done|].
  rewrite (normalizeStep_clean _ _ _ Hx), IH. by rewrite <- List.app_assoc.
Qed.

Lemma join_cons2 (sep x y : string) (l : list string) :
  JsString.join sep (x :: y :: l) = x +:+ sep +:+ JsString.join sep (y :: l).
Proof. reflexivity. Qed.

Lemma join_snoc (l : list string) (x : string) :
  l ≠ [] → JsString.join "/" (l ++ [x]) = JsString.join "/" l +:+ "/" +:+ x.
Proof.
  induction l as [|y l IH]; [done|]. intros _.
  destruct l as [|z l]; [reflexivity|].
  change ((y :: z :: l) ++ [x]) with (y :: z :: (l ++ [x])).
  rewrite !join_cons2. change (z :: l ++ [x]) with ((z :: l) ++ [x]).
  rewrite IH by done. by rewrite !append_assoc.
Qed.

Lemma join_nonempty (l : list string) :
  l ≠ [] → Forall cleanSegment l → JsString.join "/" l ≠ "".
Proof.
  destruct l as [|x l]; [done|]. intros _ Hl.
  apply Forall_cons in Hl as [(Hx & _) _].
  destruct x as [|c x]; [done|]. by destruct l.
Qed.

Lemma split_join (l : list string) :
  l ≠ [] → Forall cleanSegment l → split "/" (JsString.join "/" l) = l.
Proof.
  induction l as [|x l IH]; [done|]. intros _ Hl.
  apply Forall_cons in Hl as [Hx Hl].
  destruct l as [|y l].
  - simpl. apply split_free, Hx.
  - rewrite join_cons2.
    change (x +:+ "/" +:+ JsString.join "/" (y :: l))
      with (x +:+ String "/" (JsString.join "/" (y :: l))).
    rewrite split_app, IH by done. by rewrite (split_free _ _ (proj2 (proj2 (proj2 Hx)))).
Qed.

Lemma fold_split_join (a : bool) (l acc : list string) :
  Forall cleanSegment l →
  fold_left (normalizeStep a) (split "/" (JsString.join "/" l)) acc = rev l ++ acc.
Proof.
  intros Hl. destruct l as [|x l]; [reflexivity|].
  rewrite split_join by done. by apply fold_clean.
Qed.

Lemma endsWithChar_cons (c d : ascii) (s : string) :
  s ≠ "" → endsWithChar c (String d s) = endsWithChar c s.
Proof. by destruct s. Qed.

Lemma endsWithChar_app (c : ascii) (a b : string) :
  b ≠ "" → endsWithChar c (a +:+ b) = endsWithChar c b.
Proof.
  intros Hb. induction a as [|d a IH]; [done|].
  rewrite append_cons, endsWithChar_cons; [done|].
  destruct a; [done | by rewrite append_cons].
Qed.

Lemma endsWithChar_free (c : ascii) (s : string) :
  hasChar c s = false → endsWithChar c s = false.
Proof.
  induction s as [|d s IH]; [done|]. simpl.
  intros [Hd Hs]%orb_false_iff. destruct s; [done | by apply IH].
Qed.

Lemma endsWithChar_join (l : list string) :
  Forall cleanSegment l → endsWithChar "/" (JsString.join "/" l) = false.
Proof.
  induction 1 as [|x l Hx Hl IH]; [done|].
  destruct l as [|y l]; [apply endsWithChar_free, Hx|].
  rewrite join_cons2, endsWithChar_app, endsWithChar_app; [done| |].
  - by apply join_nonempty.
  - intros H. destruct (JsString.join "/" (y :: l)); done.
Qed.

(** An absolute path made of clean segments is a fixed point of
    [path.normalize]. *)
Lemma normalize_clean (l : list string) :
  l ≠ [] → Forall cleanSegment l →
  normalize ("/" +:+ JsString.join "/" l) = "/" +:+ JsString.join "/" l.
Proof.
  intros Hne Hl.
  change ("/" +:+ JsString.join "/" l) with (String "/" (JsString.join "/" l)).
  unfold normalize.
  rewrite endsWithChar_cons by (by apply join_nonempty).
  rewrite endsWithChar_join by done.
  unfold normalizeString. simpl split. simpl fold_left.
  rewrite fold_split_join by done. rewrite List.app_nil_r, rev_involutive.
  pose proof (join_nonempty l Hne Hl).
  simpl. by destruct (JsString.join "/" l).
Qed.

(** Joining a clean absolute directory with one clean segment. *)
Lemma join_segment (segs : list string) (x : string) :
  Forall cleanSegment segs → cleanSegment x →
  join ["/" +:+ JsString.join "/" segs; x] = "/" +:+ JsString.join "/" (segs ++ [x]).
Proof.
  intros Hsegs Hx. unfold join.
  assert (Hx0 : x ≠ "") by apply Hx.
  change ("/" +:+ JsString.join "/" segs) with (String "/" (JsString.join "/" segs)).
  rewrite filter_cons_True by done. rewrite filter_cons_True by done.
  rewrite filter_nil.
  change (JsString.join "/" [String "/" (JsString.join "/" segs); x])
    with (String "/" (JsString.join "/" segs +:+ String "/" x)).
  unfold normalize.
  rewrite endsWithChar_cons by (by destruct (JsString.join "/" segs)).
  rewrite endsWithChar_app by done.
  rewrite (endsWithChar_cons _ _ x Hx0), (endsWithChar_free _ _ (proj2 (proj2 (proj2 Hx)))).
  unfold normalizeString. simpl split. rewrite split_app. simpl fold_left.
  rewrite fold_left_app, fold_split_join by done.
  rewrite (split_free _ _ (proj2 (proj2 (proj2 Hx)))). simpl fold_left.
  rewrite (normalizeStep_clean _ _ _ Hx), List.app_nil_r.
  simpl rev. rewrite rev_involutive.
  assert (Hj : JsString.join "/" (segs ++ [x]) ≠ "").
  { apply join_nonempty; [by destruct segs | apply Forall_app; split; [done | by apply Forall_singleton]]. }
  simpl. by destruct (JsString.join "/" (segs ++ [x])).
Qed.

(** The containment check of the handlers accepts a file directly under a
    clean absolute root. *)
Lemma root_check_segment (root x : string) :
  absoluteDir root → cleanSegment x →
  startsWith (normalize (join [root; x])) root = true.
Proof.
  intros (segs & Hsegs & ->) Hx.
  rewrite join_segment by done.
  rewrite normalize_clean; [| by destruct segs | apply Forall_app; split; [done | by apply Forall_singleton]].
  destruct segs as [|s segs]; [reflexivity|].
  rewrite join_snoc by done. rewrite <- append_assoc.
  apply startsWith_app.
Qed.

End NodePathFacts.

(** ** Facts about the responses and the resolver *)

Module HandlerFacts.
Import JsStringFacts NodePathFacts.

Lemma or_some_body (b : string) : JsString.or (Some b) EmptyString = b.
Proof. by destruct b. Qed.

Lemma or_loaded (s d : string) : s ≠ "" → JsString.or (Some s) d = s.
Proof. by destruct s. Qed.

Lemma sendMock_status (b : string) (ct : option string) : statusCode (sendMock b ct) = 200.
Proof. reflexivity. Qed.

Lemma sendMock_body (b : string) (ct : option string) : body (sendMock b ct) = b.
Proof. apply or_some_body. Qed.

Lemma sendMock_contentType (b : string) (ct : option string) :
  headers (sendMock b ct) !! "Content-Type" =
  Some (JsString.or ct "application/x-www-form-urlencoded").
Proof. unfold sendMock. simpl. rewrite lookup_insert_ne by done. apply lookup_insert_eq. Qed.

Lemma sendMock_cors (b : string) (ct : option string) :
  headers (sendMock b ct) !! "Access-Control-Allow-Origin" = Some "*".
Proof. unfold sendMock. simpl. apply lookup_insert_eq. Qed.

Lemma sendFile_status (p c : string) : statusCode (sendFile p c) = 200.
Proof. reflexivity. Qed.

Lemma sendFile_body (p c : string) : body (sendFile p c) = c.
Proof. reflexivity. Qed.

(** *** Classification *)

Lemma classify_none (p : string) :
  classify p = None ↔
  includes p "gameService" = false ∧ includes p "reloadBalance.do" = false ∧
  includes p "saveSettings.do" = false ∧ includes p "stats.do" = false ∧
  includes p "customizations.info" = false.
Proof.
  unfold classify, mockRules. cbn [List.find ruleSubstring].
  destruct (includes p "gameService"), (includes p "reloadBalance.do"),
    (includes p "saveSettings.do"), (includes p "stats.do"),
    (includes p "customizations.info"); intuition discriminate.
Qed.

(** The rule found is the first one that matches. *)
Lemma classify_some (p : string) (r : MockRule) :
  classify p = Some r ↔
  includes p (ruleSubstring r) = true ∧
  ∀ r', rank r' < rank r → includes p (ruleSubstring r') = false.
Proof.
  unfold classify, mockRules. cbn [List.find ruleSubstring].
  split.
  - destruct (includes p "gameService") eqn:H1;
      [intros [= <-]; split; [done | intros r' Hr'; simpl in Hr'; lia]|].
    destruct (includes p "reloadBalance.do") eqn:H2;
      [intros [= <-]; split; [done | intros [] Hr'; simpl in Hr'; (done || lia)]|].
    destruct (includes p "saveSettings.do") eqn:H3;
      [intros [= <-]; split; [done | intros [] Hr'; simpl in Hr'; (done || lia)]|].
    destruct (includes p "stats.do") eqn:H4;
      [intros [= <-]; split; [done | intros [] Hr'; simpl in Hr'; (done || lia)]|].
    destruct (includes p "customizations.info") eqn:H5;
      [intros [= <-]; split; [done | intros [] Hr'; simpl in Hr'; (done || lia)]|].
    done.
  - intros [Hr Hbefore].
    assert (Hb : ∀ r', (rank r' <? rank r) = true → includes p (ruleSubstring r') = false).
    { intros r' H. apply Hbefore. by apply Nat.ltb_lt. }
    pose proof (Hb GameService) as G0. pose proof (Hb ReloadBalance) as G1.
    pose proof (Hb SaveSettings) as G2. pose proof (Hb Stats) as G3.
    clear Hb Hbefore.
    destruct r; cbn in Hr, G0, G1, G2, G3;
      rewrite ?G0, ?G1, ?G2, ?G3 by done; by rewrite Hr.
Qed.

(** Both handlers answer a classified request with the rule's response. *)
Lemma serve_mock (e : Env) (now : Z) (req : Request) (r : MockRule) :
  classify (pathnameOf req) = Some r →
  Serve.handler e now req = mockResponse (cache e) now r.
Proof.
  unfold classify, mockRules, Serve.handler. cbn [List.find ruleSubstring].
  repeat (destruct (includes (pathnameOf req) _); [by intros [= <-]|]). done.
Qed.

Lemma legacy_mock (e : Env) (now : Z) (req : Request) (r : MockRule) :
  classify (pathnameOf req) = Some r →
  Legacy.handler e now req = mockResponse (cache e) now r.
Proof.
  unfold classify, mockRules, Legacy.handler. cbn [List.find ruleSubstring].
  repeat (destruct (includes (pathnameOf req) _); [by intros [= <-]|]). done.
Qed.

(** ... and hands an unclassified one to the static resolver. *)
Lemma serve_static (e : Env) (now : Z) (req : Request) :
  classify (pathnameOf req) = None →
  Serve.handler e now req =
  Serve.tryCandidate e (pathnameOf req)
    (Serve.relCandidates (relPathOf (pathnameOf req))) 0.
Proof.
  unfold classify, mockRules, Serve.handler. cbn [List.find ruleSubstring].
  repeat (destruct (includes (pathnameOf req) _); [done|]). done.
Qed.

Lemma legacy_static (e : Env) (now : Z) (req : Request) :
  classify (pathnameOf req) = None →
  Legacy.handler e now req =
  tryOne e (relPathOf (pathnameOf req)) (notFound (pathnameOf req)).
Proof.
  unfold classify, mockRules, Legacy.handler. cbn [List.find ruleSubstring].
  repeat (destruct (includes (pathnameOf req) _); [done|]).
  intros _. unfold tryOne. cbv zeta.
  destruct (negb _); [done|]. by destruct (files e !! _) as [[]|].
Qed.

(** *** The resolver *)

Lemma tryCandidate_unfold_at (e : Env) (pathname : string) (cands : list string)
    (index : nat) :
  Serve.tryCandidate e pathname cands index =
  match cands !! index with
  | None => notFound pathname
  | Some candidateRel =>
      tryOne e candidateRel (Serve.tryCandidate e pathname cands (index + 1))
  end.
Proof.
  rewrite Serve.tryCandidate_unfold_eq. unfold Serve.tryCandidate_unfold.
  change (cands !! index) with (proj1_sig (Logic.inspect (cands !! index))) at 2.
  generalize (Logic.inspect (cands !! index)).
  intros [[c|] Hc]; simpl; [|reflexivity].
  unfold tryOne. simpl.
  destruct (negb _); [reflexivity|].
  destruct (files e !! _) as [[?|]|]; reflexivity.
Qed.

Lemma tryOne_forbidden (e : Env) (c : string) (next : Response) :
  escapesRoot (ROOT e) c = true → tryOne e c next = forbidden.
Proof. unfold escapesRoot, tryOne. cbv zeta. by intros ->. Qed.

Lemma tryOne_skipped (e : Env) (c : string) (next : Response) :
  skipped e c → tryOne e c next = next.
Proof.
  unfold skipped, escapesRoot, tryOne. cbv zeta. intros [-> Hfile].
  destruct (files e !! _) as [[content|]|] eqn:Hf; [|done|done].
  by destruct (Hfile content).
Qed.

Lemma tryOne_file (e : Env) (c content : string) (next : Response) :
  escapesRoot (ROOT e) c = false →
  files e !! NodePath.join [ROOT e; c] = Some (File content) →
  tryOne e c next = sendFile (NodePath.join [ROOT e; c]) content.
Proof. unfold escapesRoot, tryOne. cbv zeta. by intros -> ->. Qed.

(** A candidate that fails the check ends the resolution, whatever comes
    after it. *)
Lemma tryCandidate_forbidden (e : Env) (pathname : string) (cands : list string)
    (index : nat) (c : string) :
  cands !! index = Some c → escapesRoot (ROOT e) c = true →
  Serve.tryCandidate e pathname cands index = forbidden.
Proof.
  intros Hc Hesc. rewrite tryCandidate_unfold_at, Hc. by apply tryOne_forbidden.
Qed.

(** Skipped candidates are passed over one by one. *)
Lemma tryCandidate_skip (e : Env) (pathname : string) (cands : list string) (n k : nat) :
  (∀ j cj, k ≤ j < k + n → cands !! j = Some cj → skipped e cj) →
  k + n ≤ length cands →
  Serve.tryCandidate e pathname cands k = Serve.tryCandidate e pathname cands (k + n).
Proof.
  revert k. induction n as [|n IH]; intros k Hskip Hlen.
  - by rewrite Nat.add_0_r.
  - destruct (lookup_lt_is_Some_2 cands k) as [ck Hck]; [lia|].
    rewrite tryCandidate_unfold_at, Hck.
    rewrite tryOne_skipped by (apply (Hskip k); [lia | done]).
    rewrite IH; [f_equal; lia | | lia].
    intros j cj Hj. apply Hskip. lia.
Qed.

(** The first candidate that is a regular file is the one served. *)
Lemma tryCandidate_first_file (e : Env) (pathname : string) (cands : list string)
    (i : nat) (c content : string) :
  cands !! i = Some c →
  (∀ j cj, j < i → cands !! j = Some cj → skipped e cj) →
  escapesRoot (ROOT e) c = false →
  files e !! NodePath.join [ROOT e; c] = Some (File content) →
  Serve.tryCandidate e pathname cands 0 = sendFile (NodePath.join [ROOT e; c]) content.
Proof.
  intros Hc Hskip Hesc Hfile.
  rewrite (tryCandidate_skip e pathname cands i 0).
  - simpl. rewrite tryCandidate_unfold_at, Hc. by apply tryOne_file.
  - intros j cj Hj. apply Hskip. lia.
  - apply lookup_lt_Some in Hc. lia.
Qed.

(** When every candidate is skipped the answer is 404 with the requested
    path. *)
Lemma tryCandidate_exhausted (e : Env) (pathname : string) (cands : list string) :
  (∀ j cj, cands !! j = Some cj → skipped e cj) →
  Serve.tryCandidate e pathname cands 0 = notFound pathname.
Proof.
  intros Hskip. rewrite (tryCandidate_skip e pathname cands (length cands) 0).
  - simpl. rewrite tryCandidate_unfold_at. by rewrite lookup_ge_None_2.
  - intros j cj _. apply Hskip.
  - done.
Qed.

(** *** The candidate list *)

Lemma relCandidates_other (relPath : string) :
  startsWith relPath Serve.vsPrefix = false → Serve.relCandidates relPath = [relPath].
Proof. unfold Serve.relCandidates. by intros ->. Qed.

Lemma withoutLeadingGame_game (t : string) : withoutLeadingGame ("game/" +:+ t) = t.
Proof. unfold withoutLeadingGame. by rewrite startsWith_app, (slice_app "game/" t). Qed.

Lemma withoutLeadingGame_other (tail : string) :
  startsWith tail "game/" = false → withoutLeadingGame tail = tail.
Proof. unfold withoutLeadingGame. by intros ->. Qed.

Lemma relCandidates_asset (tail : string) :
  Serve.relCandidates (Serve.vsPrefix +:+ tail) =
  [Serve.vsPrefix +:+ tail] ++
  (if startsWith tail "desktop/" then []
   else [Serve.vsPrefix +:+ "desktop/" +:+ tail]) ++
  (if startsWith tail "desktop/game/" then []
   else [Serve.vsPrefix +:+ "desktop/game/" +:+ withoutLeadingGame tail]).
Proof.
  unfold Serve.relCandidates.
  rewrite startsWith_app, slice_app. unfold withoutLeadingGame.
  by destruct (startsWith tail "desktop/"), (startsWith tail "desktop/game/").
Qed.

(** *** The path of a request *)

Lemma pathnameOf_query (m : string) (p q : string) :
  includes p "?" = false →
  pathnameOf (mkRequest m (Some (p +:+ "?" +:+ q))) = pathnameOf (mkRequest m (Some p)).
Proof.
  rewrite includes_char. intros Hp. unfold pathnameOf. simpl url.
  destruct p as [|c p]; [reflexivity|].
  change (JsString.or (Some (String c p)) "") with (String c p).
  change (JsString.or (Some (String c p +:+ "?" +:+ q)) "") with (String c p +:+ String "?" q).
  by rewrite split0_query, split0_free.
Qed.

End HandlerFacts.

(** ** Properties of the server *)

Import JsStringFacts NodePathFacts HandlerFacts.

Lemma classify_gameService (p : string) :
  includes p "gameService" = true → classify p = Some GameService.
Proof. intros H. unfold classify, mockRules. cbn [List.find ruleSubstring]. by rewrite H. Qed.

Lemma relCandidates_head (relPath : string) :
  Serve.relCandidates relPath !! 0 = Some relPath.
Proof. reflexivity. Qed.

Lemma pathnameOf_plain (m p : string) :
  includes p "?" = false → p ≠ "" → pathnameOf (mkRequest m (Some p)) = p.
Proof.
  rewrite includes_char. intros Hq Hp. unfold pathnameOf. simpl url.
  rewrite (or_loaded p) by done. rewrite split0_free by done. by apply or_loaded.
Qed.

(** A request that resolves to [index.html] below a clean root. *)
Lemma serve_index (e : Env) (now : Z) (req : Request) (content : string) :
  classify (pathnameOf req) = None →
  relPathOf (pathnameOf req) = "index.html" →
  absoluteDir (ROOT e) →
  files e !! NodePath.join [ROOT e; "index.html"] = Some (File content) →
  Serve.handler e now req = sendFile (NodePath.join [ROOT e; "index.html"]) content.
Proof.
  intros Hc Hrel Hroot Hfile. rewrite serve_static, Hrel by done.
  apply (tryCandidate_first_file _ _ _ 0 "index.html"); [done | lia | | done].
  unfold escapesRoot. rewrite root_check_segment; [done | done |].
  by repeat split.
Qed.

(** C1, as amended.  A request that matches no mock rule and whose
    candidate, joined with the root and normalized, does not start with the
    root path is answered 403 with the body [Forbidden] by both variants of
    the handler, for every file system and cache: no file is read.  In the
    resolver a candidate that fails the check ends the resolution at once,
    whatever candidates follow it. *)
Theorem C1_escape_forbidden (e : Env) (now : Z) (req : Request) :
  classify (pathnameOf req) = None →
  escapesRoot (ROOT e) (relPathOf (pathnameOf req)) = true →
  Serve.handler e now req = forbidden ∧
  Legacy.handler e now req = forbidden ∧
  statusCode forbidden = 403 ∧ body forbidden = "Forbidden" ∧
  ∀ pathname cands index cand,
    cands !! index = Some cand → escapesRoot (ROOT e) cand = true →
    Serve.tryCandidate e pathname cands index = forbidden.
Proof.
  intros Hc Hesc. repeat split.
  - rewrite serve_static by done.
    by apply (tryCandidate_forbidden _ _ _ 0 _ (relCandidates_head _)).
  - rewrite legacy_static by done. by apply tryOne_forbidden.
  - intros pathname cands index cand. apply tryCandidate_forbidden.
Qed.

Lemma C1_escape_forbidden_witness :
  let req := mkRequest "GET" (Some "/../../etc/passwd") in
  classify (pathnameOf req) = None ∧
  escapesRoot (ROOT demoEnv) (relPathOf (pathnameOf req)) = true ∧
  Serve.handler demoEnv 0 req = forbidden ∧
  Legacy.handler demoEnv 0 req = forbidden.
Proof.
  split; [reflexivity|]. split; [reflexivity|].
  pose proof (C1_escape_forbidden demoEnv 0 (mkRequest "GET" (Some "/../../etc/passwd"))
                eq_refl eq_refl) as (H1 & H2 & _).
  exact (conj H1 H2).
Defined.

(** C1 as stated fails: a path that leaves the root and contains
    [gameService] is answered by the mock rule, with status 200. *)
Lemma C1_counterexample :
  let req := mkRequest "GET" (Some "/../../gameService") in
  NodePath.normalize (NodePath.join [ROOT demoEnv; relPathOf (pathnameOf req)]) = "/gameService" ∧
  escapesRoot (ROOT demoEnv) (relPathOf (pathnameOf req)) = true ∧
  Serve.handler demoEnv 0 req = sendMock gameServiceFallback None ∧
  statusCode (Serve.handler demoEnv 0 req) = 200.
Proof. repeat split; vm_compute; reflexivity. Qed.

(** C2, as amended.  A request whose path contains [gameService] is answered
    200 with content type [application/x-www-form-urlencoded] and the CORS
    header, whatever the method and the query string; the body is the cached
    body when one was loaded and is not empty, and the fixed fallback when
    none was loaded or the loaded one is empty. *)
Theorem C2_gameService_mock (e : Env) (now : Z) (req : Request) :
  includes (pathnameOf req) "gameService" = true →
  let r := Serve.handler e now req in
  statusCode r = 200 ∧
  headers r !! "Content-Type" = Some "application/x-www-form-urlencoded" ∧
  headers r !! "Access-Control-Allow-Origin" = Some "*" ∧
  (∀ cached, gameServiceBody (cache e) = Some cached → cached ≠ "" → body r = cached) ∧
  (gameServiceBody (cache e) = None ∨ gameServiceBody (cache e) = Some "" →
   body r = "balance=100000.00&balance_cash=100000.00&na=s").
Proof.
  intros Hp r. subst r.
  rewrite (serve_mock e now req GameService) by (by apply classify_gameService).
  cbn [mockResponse]. rewrite sendMock_status, sendMock_contentType, sendMock_cors, sendMock_body.
  repeat split.
  - intros cached -> Hne. by apply or_loaded.
  - by intros [-> | ->].
Qed.

Lemma C2_gameService_mock_witness :
  let req := mkRequest "POST" (Some "/gs2c/ge/v4/gameService?mgckey=1") in
  includes (pathnameOf req) "gameService" = true ∧
  statusCode (Serve.handler demoEnv 0 req) = 200 ∧
  headers (Serve.handler demoEnv 0 req) !! "Content-Type"
    = Some "application/x-www-form-urlencoded" ∧
  body (Serve.handler demoEnv 0 req) = "balance=100000.00&balance_cash=100000.00&na=s".
Proof.
  split; [reflexivity|].
  pose proof (C2_gameService_mock demoEnv 0
                (mkRequest "POST" (Some "/gs2c/ge/v4/gameService?mgckey=1")) eq_refl)
    as (H1 & H2 & _ & _ & H5).
  exact (conj H1 (conj H2 (H5 (or_introl eq_refl)))).
Defined.

(** C2 as stated fails: when the saved [gameService.html] is an empty file
    the slot is loaded with the empty string, yet the body sent is the
    fallback, not the cached body. *)
Lemma C2_counterexample :
  let req := mkRequest "GET" (Some "/gameService") in
  includes (pathnameOf req) "gameService" = true ∧
  gameServiceBody (cache emptyMockEnv) = Some "" ∧
  cachedOrFallback (gameServiceBody (cache emptyMockEnv)) gameServiceFallback = "" ∧
  body (Serve.handler emptyMockEnv 0 req) = "balance=100000.00&balance_cash=100000.00&na=s".
Proof. repeat split; vm_compute; reflexivity. Qed.

(** C3.  The handler answers with the response of the first rule, in the
    order gameService, reloadBalance.do, saveSettings.do, stats.do,
    customizations.info, whose substring occurs somewhere in the path, and
    hands the request to the static resolver when none occurs.  In
    particular a path that contains the substrings of two rules gets the
    response of the earlier one when no rule before that one matches. *)
Theorem C3_priority_order (e : Env) (now : Z) (req : Request) :
  let p := pathnameOf req in
  Serve.handler e now req =
    match classify p with
    | Some r => mockResponse (cache e) now r
    | None => Serve.tryCandidate e p (Serve.relCandidates (relPathOf p)) 0
    end ∧
  (∀ r, classify p = Some r ↔
        includes p (ruleSubstring r) = true ∧
        ∀ r', rank r' < rank r → includes p (ruleSubstring r') = false) ∧
  (classify p = None ↔ ∀ r, includes p (ruleSubstring r) = false) ∧
  (∀ s t, includes s t = true ↔ ∃ a b, s = a +:+ t +:+ b) ∧
  (∀ r1 r2, rank r1 < rank r2 →
            includes p (ruleSubstring r1) = true →
            includes p (ruleSubstring r2) = true →
            (∀ r', rank r' < rank r1 → includes p (ruleSubstring r') = false) →
            Serve.handler e now req = mockResponse (cache e) now r1).
Proof.
  intros p. subst p. split; [|split; [|split; [|split]]].
  - destruct (classify (pathnameOf req)) as [r|] eqn:Hc.
    + by apply serve_mock.
    + by apply serve_static.
  - intros r. apply classify_some.
  - rewrite classify_none. split.
    + intros (H1 & H2 & H3 & H4 & H5) []; done.
    + intros H. repeat split.
      * apply (H GameService).
      * apply (H ReloadBalance).
      * apply (H SaveSettings).
      * apply (H Stats).
      * apply (H Customizations).
  - apply includes_spec.
  - intros r1 r2 _ H1 _ Hfirst. apply serve_mock. by apply classify_some.
Qed.

Lemma C3_priority_order_witness :
  let req := mkRequest "GET" (Some "/stats.do/gameService/reloadBalance.do") in
  includes (pathnameOf req) "stats.do" = true ∧
  includes (pathnameOf req) "gameService" = true ∧
  Serve.handler demoEnv 0 req = mockResponse noCache 0 GameService.
Proof.
  split; [reflexivity|]. split; [reflexivity|].
  pose proof (C3_priority_order demoEnv 0
                (mkRequest "GET" (Some "/stats.do/gameService/reloadBalance.do")))
    as (_ & _ & _ & _ & H).
  apply (H GameService Stats); [simpl; lia | reflexivity | reflexivity |].
  intros r' Hr'. simpl in Hr'. lia.
Defined.

(** C4, as amended.  For a request that matches no mock rule and whose
    relative path is the vs40cosmiccash prefix followed by [tail], the
    candidates are: the primary path; then, unless [tail] starts with
    [desktop/], the prefix, [desktop/] and the unchanged tail; then, unless
    [tail] starts with [desktop/game/], the prefix, [desktop/game/] and the
    tail without one leading [game/] (the unchanged tail when it has none).
    They are tried in this order: when the candidates before one are skipped
    (inside the root, not a regular file) and that one is inside the root and
    a regular file, its content is served with status 200; when all are
    skipped the answer is 404. *)
Theorem C4_asset_candidates (e : Env) (now : Z) (req : Request) (tail : string) :
  classify (pathnameOf req) = None →
  relPathOf (pathnameOf req) = Serve.vsPrefix +:+ tail →
  let cands :=
    [Serve.vsPrefix +:+ tail] ++
    (if startsWith tail "desktop/" then []
     else [Serve.vsPrefix +:+ "desktop/" +:+ tail]) ++
    (if startsWith tail "desktop/game/" then []
     else [Serve.vsPrefix +:+ "desktop/game/" +:+ withoutLeadingGame tail]) in
  Serve.relCandidates (relPathOf (pathnameOf req)) = cands ∧
  (∀ t, withoutLeadingGame ("game/" +:+ t) = t) ∧
  (startsWith tail "game/" = false → withoutLeadingGame tail = tail) ∧
  Serve.handler e now req = Serve.tryCandidate e (pathnameOf req) cands 0 ∧
  (∀ i cand content,
     cands !! i = Some cand →
     (∀ j cj, j < i → cands !! j = Some cj → skipped e cj) →
     escapesRoot (ROOT e) cand = false →
     files e !! NodePath.join [ROOT e; cand] = Some (File content) →
     Serve.handler e now req = sendFile (NodePath.join [ROOT e; cand]) content ∧
     statusCode (Serve.handler e now req) = 200 ∧
     body (Serve.handler e now req) = content) ∧
  ((∀ j cj, cands !! j = Some cj → skipped e cj) →
   Serve.handler e now req = notFound (pathnameOf req)).
Proof.
  intros Hc Hrel cands.
  assert (Hcands : Serve.relCandidates (relPathOf (pathnameOf req)) = cands).
  { rewrite Hrel. apply relCandidates_asset. }
  assert (Hh : Serve.handler e now req = Serve.tryCandidate e (pathnameOf req) cands 0).
  { rewrite serve_static by done. by rewrite Hcands. }
  split; [done|]. split; [apply withoutLeadingGame_game|].
  split; [apply withoutLeadingGame_other|]. split; [done|]. split.
  - intros i cand content Hi Hskip Hesc Hfile.
    rewrite Hh, (tryCandidate_first_file e _ cands i cand content) by done.
    by rewrite sendFile_status, sendFile_body.
  - intros Hskip. rewrite Hh. by apply tryCandidate_exhausted.
Qed.

Lemma C4_asset_candidates_witness :
  let req := mkRequest "GET" (Some ("/" +:+ Serve.vsPrefix +:+ "res.json")) in
  classify (pathnameOf req) = None ∧
  relPathOf (pathnameOf req) = Serve.vsPrefix +:+ "res.json" ∧
  Serve.relCandidates (relPathOf (pathnameOf req)) =
    [Serve.vsPrefix +:+ "res.json"; Serve.vsPrefix +:+ "desktop/res.json";
     Serve.vsPrefix +:+ "desktop/game/res.json"] ∧
  Serve.handler assetEnv 0 req =
    sendFile ("/srv/app/" +:+ Serve.vsPrefix +:+ "desktop/res.json") "{}".
Proof.
  split; [reflexivity|]. split; [reflexivity|].
  pose proof (C4_asset_candidates assetEnv 0
                (mkRequest "GET" (Some ("/" +:+ Serve.vsPrefix +:+ "res.json")))
                "res.json" eq_refl eq_refl) as (H1 & _ & _ & _ & H5 & _).
  split; [exact H1|].
  refine (proj1 (H5 1 (Serve.vsPrefix +:+ "desktop/res.json") "{}" eq_refl _ eq_refl eq_refl)).
  intros j cj Hj Hcj. destruct j as [|j]; [|lia].
  injection Hcj as <-. split; [reflexivity|].
  intros content Hcontent. vm_compute in Hcontent. discriminate Hcontent.
Defined.

(** C4 as stated fails: for the tail [game/x.json] the third candidate is
    built from [x.json], not from the unchanged tail, so the list differs
    from the one of the claim, and a file that exists only at
    [desktop/game/game/x.json] is not found. *)
Lemma C4_counterexample :
  let tail := "game/x.json" in
  startsWith (Serve.vsPrefix +:+ tail) Serve.vsPrefix = true ∧
  candidatesUnchangedTail tail =
    [Serve.vsPrefix +:+ "game/x.json"; Serve.vsPrefix +:+ "desktop/game/x.json";
     Serve.vsPrefix +:+ "desktop/game/game/x.json"] ∧
  Serve.relCandidates (Serve.vsPrefix +:+ tail) =
    [Serve.vsPrefix +:+ "game/x.json"; Serve.vsPrefix +:+ "desktop/game/x.json";
     Serve.vsPrefix +:+ "desktop/game/x.json"] ∧
  Serve.relCandidates (Serve.vsPrefix +:+ tail) ≠ candidatesUnchangedTail tail ∧
  Serve.handler
    {| ROOT := "/srv/app";
       files := {[ "/srv/app/" +:+ Serve.vsPrefix +:+ "desktop/game/game/x.json" := File "{}" ]};
       cache := noCache |}
    0 (mkRequest "GET" (Some ("/" +:+ Serve.vsPrefix +:+ tail)))
  = notFound ("/" +:+ Serve.vsPrefix +:+ tail).
Proof.
  split; [reflexivity|]. split; [reflexivity|]. split; [reflexivity|].
  split; [|vm_compute; reflexivity].
  intros H. vm_compute in H. discriminate H.
Qed.

(** C5, as amended.  Classification looks at the path component only: what
    follows the first [?] never changes the response, and a request is
    answered by the stats rule when [stats.do] occurs in its path component
    and no earlier rule matches it. *)
Theorem C5_stats_path_component (e : Env) (now : Z) (m p q : string) :
  includes p "?" = false →
  Serve.handler e now (mkRequest m (Some (p +:+ "?" +:+ q))) =
    Serve.handler e now (mkRequest m (Some p)) ∧
  (includes p "gameService" = false →
   includes p "reloadBalance.do" = false →
   includes p "saveSettings.do" = false →
   includes p "stats.do" = true →
   Serve.handler e now (mkRequest m (Some (p +:+ "?" +:+ q))) =
     sendMock (JsString.or (statsBody (cache e)) statsFallback) (Some "application/json")).
Proof.
  intros Hq.
  assert (Hpath : pathnameOf (mkRequest m (Some (p +:+ "?" +:+ q)))
                  = pathnameOf (mkRequest m (Some p))) by (by apply pathnameOf_query).
  assert (Hsame : Serve.handler e now (mkRequest m (Some (p +:+ "?" +:+ q)))
                  = Serve.handler e now (mkRequest m (Some p))).
  { unfold Serve.handler. by rewrite Hpath. }
  split; [done|]. intros H1 H2 H3 H4. rewrite Hsame.
  apply (serve_mock e now _ Stats). apply classify_some.
  assert (Hp : p ≠ "") by (by intros ->).
  rewrite pathnameOf_plain by done. split; [done|].
  intros [] Hr; simpl in Hr; (done || lia).
Qed.

Lemma C5_stats_path_component_witness :
  includes "/page.html" "?" = false ∧
  Serve.handler demoEnv 0 (mkRequest "GET" (Some ("/page.html" +:+ "?" +:+ "ref=stats.do"))) =
    Serve.handler demoEnv 0 (mkRequest "GET" (Some "/page.html")) ∧
  includes "/stats.do" "stats.do" = true ∧
  Serve.handler demoEnv 0 (mkRequest "GET" (Some ("/stats.do" +:+ "?" +:+ "a=1"))) =
    sendMock statsFallback (Some "application/json").
Proof.
  split; [reflexivity|].
  split; [exact (proj1 (C5_stats_path_component demoEnv 0 "GET" "/page.html" "ref=stats.do" eq_refl))|].
  split; [reflexivity|].
  exact (proj2 (C5_stats_path_component demoEnv 0 "GET" "/stats.do" "a=1" eq_refl)
           eq_refl eq_refl eq_refl eq_refl).
Defined.

(** C5 as stated fails: [stats.do] in the query string alone does not select
    the stats rule; the request is resolved as the static file [/page.html]
    and, the file being absent, answered 404. *)
Lemma C5_counterexample :
  let target := "/page.html?ref=stats.do" in
  includes target "stats.do" = true ∧
  pathnameOf (mkRequest "GET" (Some target)) = "/page.html" ∧
  classify (pathnameOf (mkRequest "GET" (Some target))) = None ∧
  Serve.handler demoEnv 0 (mkRequest "GET" (Some target)) = notFound "/page.html" ∧
  statusCode (Serve.handler demoEnv 0 (mkRequest "GET" (Some target))) = 404 ∧
  statusCode (mockResponse (cache demoEnv) 0 Stats) = 200.
Proof. repeat split; vm_compute; reflexivity. Qed.

(** C6.  With no reloadBalance body loaded, the request
    [/reloadBalance.do?x=1] is answered 200 with content type
    [application/x-www-form-urlencoded] and the body
    [balance_bonus=0.00&balance=100000.00&balance_cash=100000.00&stime=]
    followed by the decimal numeral of the current time in milliseconds. *)
Theorem C6_reloadBalance_fallback (e : Env) (now : Z) (m : string) :
  reloadBalanceBody (cache e) = None →
  let r := Serve.handler e now (mkRequest m (Some "/reloadBalance.do?x=1")) in
  statusCode r = 200 ∧
  headers r !! "Content-Type" = Some "application/x-www-form-urlencoded" ∧
  body r = "balance_bonus=0.00&balance=100000.00&balance_cash=100000.00&stime="
             +:+ ofNumber now ∧
  toNumber (ofNumber now) = Some now.
Proof.
  intros Hslot r. subst r.
  rewrite (serve_mock e now _ ReloadBalance) by reflexivity.
  cbn [mockResponse]. rewrite Hslot.
  rewrite sendMock_status, sendMock_contentType, sendMock_body.
  repeat split. apply toNumber_ofNumber.
Qed.

Lemma C6_reloadBalance_fallback_witness :
  reloadBalanceBody (cache demoEnv) = None ∧
  body (Serve.handler demoEnv 1730000000000 (mkRequest "GET" (Some "/reloadBalance.do?x=1"))) =
    "balance_bonus=0.00&balance=100000.00&balance_cash=100000.00&stime=1730000000000".
Proof.
  split; [reflexivity|].
  exact (proj1 (proj2 (proj2 (C6_reloadBalance_fallback demoEnv 1730000000000 "GET" eq_refl)))).
Defined.

(** C7.  The request [/customizations.info], and every request whose path
    contains [customizations.info] and none of the four earlier substrings,
    is answered 200 with content type [application/json], the CORS header
    and the literal body, for every file system and every state of the cache
    slots. *)
Theorem C7_customizations_literal :
  (∀ (e : Env) (now : Z) (m : string),
     Serve.handler e now (mkRequest m (Some "/customizations.info")) =
       sendMock customizationsBody (Some "application/json")) ∧
  (∀ (e : Env) (now : Z) (req : Request),
     includes (pathnameOf req) "gameService" = false →
     includes (pathnameOf req) "reloadBalance.do" = false →
     includes (pathnameOf req) "saveSettings.do" = false →
     includes (pathnameOf req) "stats.do" = false →
     includes (pathnameOf req) "customizations.info" = true →
     let r := Serve.handler e now req in
     statusCode r = 200 ∧
     headers r !! "Content-Type" = Some "application/json" ∧
     headers r !! "Access-Control-Allow-Origin" = Some "*" ∧
     body r = "{" +:+ dq +:+ "customizations" +:+ dq +:+ ":[]}").
Proof.
  split.
  - intros e now m. by apply (serve_mock e now _ Customizations).
  - intros e now req H1 H2 H3 H4 H5 r. subst r.
    rewrite (serve_mock e now req Customizations).
    + cbn [mockResponse].
      by rewrite sendMock_status, sendMock_contentType, sendMock_cors, sendMock_body.
    + apply classify_some. split; [done|].
      intros [] Hr; simpl in Hr; (done || lia).
Qed.

Lemma C7_customizations_literal_witness :
  let req := mkRequest "GET" (Some "/gs2c/customizations.info?v=3") in
  includes (pathnameOf req) "customizations.info" = true ∧
  statusCode (Serve.handler assetEnv 7 req) = 200 ∧
  headers (Serve.handler assetEnv 7 req) !! "Content-Type" = Some "application/json" ∧
  body (Serve.handler assetEnv 7 req) = customizationsBody.
Proof.
  split; [reflexivity|].
  pose proof (proj2 C7_customizations_literal assetEnv 7%Z
                (mkRequest "GET" (Some "/gs2c/customizations.info?v=3"))
                eq_refl eq_refl eq_refl eq_refl eq_refl) as (H1 & H2 & _ & H4).
  exact (conj H1 (conj H2 H4)).
Defined.

(** C8.  When the root directory holds a regular file [index.html], the
    requests [/] and [/index.html] (and the empty or missing target) get the
    same response: status 200 with the bytes of that file.  All of them have
    the primary candidate [index.html]. *)
Theorem C8_root_is_index (e : Env) (now : Z) (m : string) (content : string) :
  absoluteDir (ROOT e) →
  files e !! NodePath.join [ROOT e; "index.html"] = Some (File content) →
  let r := Serve.handler e now (mkRequest m (Some "/")) in
  Serve.handler e now (mkRequest m (Some "/index.html")) = r ∧
  Serve.handler e now (mkRequest m (Some "")) = r ∧
  Serve.handler e now (mkRequest m None) = r ∧
  statusCode r = 200 ∧ body r = content ∧
  relPathOf "/" = "index.html" ∧ relPathOf "/index.html" = "index.html" ∧
  relPathOf "" = "index.html".
Proof.
  intros Hroot Hfile r. subst r.
  rewrite !(serve_index e now _ content) by done.
  by rewrite sendFile_status, sendFile_body.
Qed.

Lemma C8_root_is_index_witness :
  absoluteDir (ROOT demoEnv) ∧
  files demoEnv !! NodePath.join [ROOT demoEnv; "index.html"] = Some (File "<html></html>") ∧
  Serve.handler demoEnv 0 (mkRequest "GET" (Some "/index.html")) =
    Serve.handler demoEnv 0 (mkRequest "GET" (Some "/")) ∧
  statusCode (Serve.handler demoEnv 0 (mkRequest "GET" (Some "/"))) = 200 ∧
  body (Serve.handler demoEnv 0 (mkRequest "GET" (Some "/"))) = "<html></html>".
Proof.
  assert (Hroot : absoluteDir (ROOT demoEnv)).
  { exists ["srv"; "app"]. split; [|reflexivity].
    repeat constructor; discriminate. }
  split; [exact Hroot|]. split; [reflexivity|].
  pose proof (C8_root_is_index demoEnv 0 "GET" "<html></html>" Hroot eq_refl)
    as (H1 & _ & _ & H4 & H5 & _).
  exact (conj H1 (conj H4 H5)).
Defined.

(** C9.  Handling the same request twice against the same file system and
    cache gives the same status and the same headers, and the same body
    unless the request falls under the reloadBalance rule with no usable
    cached body, in which case the two bodies are the fallback with the two
    timestamps.  The response depends on the request through its path
    only. *)
Theorem C9_repeatable (e : Env) (req : Request) (t1 t2 : Z) :
  let r1 := Serve.handler e t1 req in
  let r2 := Serve.handler e t2 req in
  statusCode r1 = statusCode r2 ∧
  headers r1 = headers r2 ∧
  (body r1 = body r2 ∨
   (classify (pathnameOf req) = Some ReloadBalance ∧
    (reloadBalanceBody (cache e) = None ∨ reloadBalanceBody (cache e) = Some "") ∧
    body r1 = reloadBalanceFallback t1 ∧ body r2 = reloadBalanceFallback t2)) ∧
  (∀ req', pathnameOf req' = pathnameOf req →
           Serve.handler e t1 req' = Serve.handler e t1 req).
Proof.
  intros r1 r2. subst r1 r2. split; [|split; [|split]].
  - destruct (classify (pathnameOf req)) as [r|] eqn:Hc.
    + rewrite !(serve_mock e _ req r) by done. by destruct r.
    + by rewrite !serve_static.
  - destruct (classify (pathnameOf req)) as [r|] eqn:Hc.
    + rewrite !(serve_mock e _ req r) by done. by destruct r.
    + by rewrite !serve_static.
  - destruct (classify (pathnameOf req)) as [r|] eqn:Hc.
    + rewrite !(serve_mock e _ req r) by done.
      destruct r; try (by left).
      cbn [mockResponse]. rewrite !sendMock_body.
      destruct (reloadBalanceBody (cache e)) as [[|c s]|] eqn:Hslot.
      * right. by eauto.
      * by left.
      * right. by eauto.
    + left. by rewrite !serve_static.
  - intros req' Hreq'. unfold Serve.handler. by rewrite Hreq'.
Qed.

Lemma C9_repeatable_witness :
  body (Serve.handler demoEnv 1000 (mkRequest "GET" (Some "/index.html"))) =
    body (Serve.handler demoEnv 2000 (mkRequest "GET" (Some "/index.html"))) ∧
  Serve.handler demoEnv 1000 (mkRequest "POST" (Some "/x.js?v=1")) =
    Serve.handler demoEnv 1000 (mkRequest "GET" (Some "/x.js")).
Proof.
  split.
  - destruct (C9_repeatable demoEnv (mkRequest "GET" (Some "/index.html")) 1000 2000)
      as (_ & _ & [H | (H & _)] & _); [exact H | discriminate H].
  - exact (proj2 (proj2 (proj2
             (C9_repeatable demoEnv (mkRequest "GET" (Some "/x.js")) 1000%Z 1000%Z)))
             (mkRequest "POST" (Some "/x.js?v=1")) eq_refl).
Defined.

(** C10.  On a request that matches no mock rule and whose relative path
    does not begin with the vs40cosmiccash prefix, the handler of [serve.js]
    and the handler of the earlier variant give the same response (status,
    headers and body), for every file system and cache. *)
Theorem C10_variants_agree (e : Env) (now : Z) (req : Request) :
  classify (pathnameOf req) = None →
  startsWith (relPathOf (pathnameOf req)) Serve.vsPrefix = false →
  Serve.handler e now req = Legacy.handler e now req.
Proof.
  intros Hc Hvs.
  rewrite serve_static, legacy_static, relCandidates_other by done.
  rewrite tryCandidate_unfold_at. cbn [lookup list_lookup].
  by rewrite (tryCandidate_unfold_at _ _ _ (0 + 1)).
Qed.

Lemma C10_variants_agree_witness :
  let req := mkRequest "GET" (Some "/css/site.css") in
  classify (pathnameOf req) = None ∧
  startsWith (relPathOf (pathnameOf req)) Serve.vsPrefix = false ∧
  Serve.handler demoEnv 0 req = Legacy.handler demoEnv 0 req.
Proof.
  split; [reflexivity|]. split; [reflexivity|].
  exact (C10_variants_agree demoEnv 0 (mkRequest "GET" (Some "/css/site.css")) eq_refl eq_refl).
Defined.

(** ** Startup *)

Lemma loadSlot_cases (fsys : gmap string FsNode) (p : string) :
  loadSlot fsys p =
  match fsys !! p with
  | Some NotFile => None
  | _ => Some (readFileSync fsys p)
  end.
Proof.
  unfold loadSlot, existsSync, readFileSync.
  destruct (fsys !! p) as [[c|]|] eqn:Hp.
  - by rewrite bool_decide_eq_true_2.
  - by rewrite bool_decide_eq_true_2.
  - rewrite bool_decide_eq_false_2; [done|]. by intros [? ?].
Qed.

Lemma loadSlot_readable (fsys : gmap string FsNode) (p : string) :
  fsys !! p ≠ Some NotFile → loadSlot fsys p = Some (readFileSync fsys p).
Proof. intros H. rewrite loadSlot_cases. by destruct (fsys !! p) as [[c|]|]. Qed.

Lemma loadSlot_throws (fsys : gmap string FsNode) (p : string) :
  fsys !! p = Some NotFile → loadSlot fsys p = None.
Proof. intros H. by rewrite loadSlot_cases, H. Qed.

Lemma loadMockResponses_unfold (root : string) (fsys : gmap string FsNode) :
  loadMockResponses root fsys =
  match loadSlot fsys (gsPath root) with
  | None => mkCache None None None None
  | Some gs =>
      match loadSlot fsys (rbPath root) with
      | None => mkCache gs None None None
      | Some rb =>
          match loadSlot fsys (ssPath root) with
          | None => mkCache gs rb None None
          | Some ss =>
              match loadSlot fsys (stPath root) with
              | None => mkCache gs rb ss None
              | Some st => mkCache gs rb ss st
              end
          end
      end
  end.
Proof. reflexivity. Qed.

(** X1.  When each of the four startup files is either absent or a regular
    file, every slot holds the content of its file, and is null exactly for
    the absent ones: any subset may be missing. *)
Theorem X1_load_present_files (root : string) (fsys : gmap string FsNode) :
  (∀ p, p ∈ mockPaths root → fsys !! p ≠ Some NotFile) →
  cacheSlots (loadMockResponses root fsys) = readFileSync fsys <$> mockPaths root.
Proof.
  intros H. rewrite loadMockResponses_unfold.
  rewrite !loadSlot_readable; [done | | | |]; apply H; unfold mockPaths; set_solver.
Qed.

Lemma X1_load_present_files_witness :
  (∀ p, p ∈ mockPaths "/srv/app" → savedMockFiles !! p ≠ Some NotFile) ∧
  cacheSlots (loadMockResponses "/srv/app" savedMockFiles) =
    [Some "na=s"; None; Some "ok"; Some "{}"].
Proof.
  assert (H : ∀ p, p ∈ mockPaths "/srv/app" → savedMockFiles !! p ≠ Some NotFile).
  { intros p Hp. unfold mockPaths in Hp.
    apply elem_of_cons in Hp as [-> | Hp]; [by vm_compute|].
    apply elem_of_cons in Hp as [-> | Hp]; [by vm_compute|].
    apply elem_of_cons in Hp as [-> | Hp]; [by vm_compute|].
    apply elem_of_cons in Hp as [-> | Hp]; [by vm_compute|].
    exfalso. exact (not_elem_of_nil _ Hp). }
  split; [exact H|].
  exact (X1_load_present_files "/srv/app" savedMockFiles H).
Defined.

(** X2.  The four reads share one [try] block: when the file of slot [k]
    exists but cannot be read as a file, the slots before [k] are loaded and
    slot [k] and every later slot stay null, whatever files exist for the
    later ones. *)
Theorem X2_load_aborts_at_failure (root : string) (fsys : gmap string FsNode)
    (k : nat) (p : string) :
  mockPaths root !! k = Some p →
  fsys !! p = Some NotFile →
  (∀ j pj, j < k → mockPaths root !! j = Some pj → fsys !! pj ≠ Some NotFile) →
  cacheSlots (loadMockResponses root fsys) =
    (readFileSync fsys <$> take k (mockPaths root)) ++ replicate (4 - k) None.
Proof.
  intros Hk Hp Hbefore. rewrite loadMockResponses_unfold.
  destruct k as [|[|[|[|k]]]]; simpl in Hk; try done; injection Hk as <-.
  - by rewrite (loadSlot_throws _ _ Hp).
  - rewrite (loadSlot_readable fsys (gsPath root)) by (by apply (Hbefore 0); [lia|]).
    by rewrite (loadSlot_throws _ _ Hp).
  - rewrite (loadSlot_readable fsys (gsPath root)) by (by apply (Hbefore 0); [lia|]).
    rewrite (loadSlot_readable fsys (rbPath root)) by (by apply (Hbefore 1); [lia|]).
    by rewrite (loadSlot_throws _ _ Hp).
  - rewrite (loadSlot_readable fsys (gsPath root)) by (by apply (Hbefore 0); [lia|]).
    rewrite (loadSlot_readable fsys (rbPath root)) by (by apply (Hbefore 1); [lia|]).
    rewrite (loadSlot_readable fsys (ssPath root)) by (by apply (Hbefore 2); [lia|]).
    by rewrite (loadSlot_throws _ _ Hp).
Qed.

Lemma X2_load_aborts_at_failure_witness :
  mockPaths "/srv/app" !! 1 = Some (rbPath "/srv/app") ∧
  brokenMockFiles !! rbPath "/srv/app" = Some NotFile ∧
  brokenMockFiles !! stPath "/srv/app" = Some (File "{}") ∧
  cacheSlots (loadMockResponses "/srv/app" brokenMockFiles) = [Some "na=s"; None; None; None].
Proof.
  split; [reflexivity|]. split; [by vm_compute|]. split; [by vm_compute|].
  refine (X2_load_aborts_at_failure "/srv/app" brokenMockFiles 1 (rbPath "/srv/app")
            eq_refl _ _).
  - by vm_compute.
  - intros j pj Hj Hpj. destruct j as [|j]; [|lia].
    injection Hpj as <-. by vm_compute.
Defined.

(** X3.  Startup reads nothing but the four fixed paths: two file systems
    that agree on them give the same slots. *)
Theorem X3_load_reads_four_paths (root : string) (fsys1 fsys2 : gmap string FsNode) :
  (∀ p, p ∈ mockPaths root → fsys1 !! p = fsys2 !! p) →
  loadMockResponses root fsys1 = loadMockResponses root fsys2.
Proof.
  intros H.
  assert (Hslot : ∀ p, p ∈ mockPaths root → loadSlot fsys1 p = loadSlot fsys2 p).
  { intros p Hp. rewrite !loadSlot_cases. unfold readFileSync. by rewrite (H p Hp). }
  rewrite !loadMockResponses_unfold.
  rewrite (Hslot (gsPath root)), (Hslot (rbPath root)),
    (Hslot (ssPath root)), (Hslot (stPath root)); [done | | | |];
    unfold mockPaths; set_solver.
Qed.

Lemma X3_load_reads_four_paths_witness :
  loadMockResponses "/srv/app" (<["/srv/app/index.html" := File "x"]> savedMockFiles) =
  loadMockResponses "/srv/app" savedMockFiles.
Proof.
  apply X3_load_reads_four_paths. intros p Hp.
  apply lookup_insert_ne. unfold mockPaths in Hp.
  apply elem_of_cons in Hp as [-> | Hp]; [by vm_compute|].
  apply elem_of_cons in Hp as [-> | Hp]; [by vm_compute|].
  apply elem_of_cons in Hp as [-> | Hp]; [by vm_compute|].
  apply elem_of_cons in Hp as [-> | Hp]; [by vm_compute|].
  exfalso. exact (not_elem_of_nil _ Hp).
Defined.

(** ** Outcomes of the static resolver *)

Lemma tryOne_cases (e : Env) (c : string) (next : Response) :
  (escapesRoot (ROOT e) c = true ∧ tryOne e c next = forbidden) ∨
  (escapesRoot (ROOT e) c = false ∧
   ∃ content, files e !! NodePath.join [ROOT e; c] = Some (File content) ∧
              tryOne e c next = sendFile (NodePath.join [ROOT e; c]) content) ∨
  (skipped e c ∧ tryOne e c next = next).
Proof.
  destruct (escapesRoot (ROOT e) c) eqn:Hesc.
  - left. split; [done|]. by apply tryOne_forbidden.
  - right. destruct (files e !! NodePath.join [ROOT e; c]) as [[content|]|] eqn:Hf.
    + left. split; [done|]. exists content. split; [done|]. by apply tryOne_file.
    + right. assert (Hs : skipped e c) by (split; [done | by intros ?; rewrite Hf]).
      split; [done|]. by apply tryOne_skipped.
    + right. assert (Hs : skipped e c) by (split; [done | by intros ?; rewrite Hf]).
      split; [done|]. by apply tryOne_skipped.
Qed.

Lemma decidedAt_here (e : Env) (cands : list string) (k : nat) (cand : string) :
  cands !! k = Some cand → decidedAt e cands k k cand.
Proof. intros Hk. split; [lia|]. split; [done|]. intros j cj Hj. lia. Qed.

Lemma tryCandidate_cases (e : Env) (pathname : string) (cands : list string) (k : nat) :
  let r := Serve.tryCandidate e pathname cands k in
  (∃ i cand, decidedAt e cands k i cand ∧
             escapesRoot (ROOT e) cand = true ∧ r = forbidden) ∨
  (∃ i cand content, decidedAt e cands k i cand ∧
             escapesRoot (ROOT e) cand = false ∧
             files e !! NodePath.join [ROOT e; cand] = Some (File content) ∧
             r = sendFile (NodePath.join [ROOT e; cand]) content) ∨
  ((∀ j cj, k ≤ j → cands !! j = Some cj → skipped e cj) ∧ r = notFound pathname).
Proof.
  cbv zeta. remember (length cands - k) as n eqn:Hn. revert k Hn.
  induction n as [|n IH]; intros k Hn; rewrite tryCandidate_unfold_at.
  - rewrite lookup_ge_None_2 by lia. right; right. split; [|done].
    intros j cj Hj Hcj. apply lookup_lt_Some in Hcj. lia.
  - destruct (lookup_lt_is_Some_2 cands k) as [ck Hck]; [lia|]. rewrite Hck.
    destruct (tryOne_cases e ck (Serve.tryCandidate e pathname cands (k + 1)))
      as [[Hesc ->] | [[Hesc (content & Hf & ->)] | [Hskip ->]]].
    + left. exists k, ck. split; [by apply decidedAt_here | done].
    + right; left. exists k, ck, content. split; [by apply decidedAt_here | done].
    + assert (Hext : ∀ i cand, decidedAt e cands (k + 1) i cand → decidedAt e cands k i cand).
      { intros i cand (Hi & Hc & Hbefore). split; [lia|]. split; [done|].
        intros j cj Hj Hcj. destruct (decide (j = k)) as [-> | Hne].
        - rewrite Hck in Hcj. by injection Hcj as <-.
        - apply (Hbefore j); [lia | done]. }
      destruct (IH (k + 1) ltac:(lia))
        as [(i & cand & Hd & H) | [(i & cand & content & Hd & H) | [Hall Hr]]].
      * left. exists i, cand. split; [by apply Hext | done].
      * right; left. exists i, cand, content. split; [by apply Hext | done].
      * right; right. split; [|done].
        intros j cj Hj Hcj. destruct (decide (j = k)) as [-> | Hne].
        -- rewrite Hck in Hcj. by injection Hcj as <-.
        -- apply (Hall j); [lia | done].
Qed.

(** X4.  Whatever the handler sends with status 200 for a request that
    matches no mock rule is the content of a regular file: one of the
    candidates of the request, whose joined and normalized path starts with
    the root, with every earlier candidate skipped. *)
Theorem X4_served_file_is_checked (e : Env) (now : Z) (req : Request) :
  classify (pathnameOf req) = None →
  statusCode (Serve.handler e now req) = 200 →
  ∃ i cand content,
    Serve.relCandidates (relPathOf (pathnameOf req)) !! i = Some cand ∧
    (∀ j cj, j < i → Serve.relCandidates (relPathOf (pathnameOf req)) !! j = Some cj →
             skipped e cj) ∧
    startsWith (NodePath.normalize (NodePath.join [ROOT e; cand])) (ROOT e) = true ∧
    files e !! NodePath.join [ROOT e; cand] = Some (File content) ∧
    Serve.handler e now req = sendFile (NodePath.join [ROOT e; cand]) content ∧
    body (Serve.handler e now req) = content.
Proof.
  intros Hc. rewrite serve_static by done.
  destruct (tryCandidate_cases e (pathnameOf req)
              (Serve.relCandidates (relPathOf (pathnameOf req))) 0)
    as [(i & cand & Hd & _ & ->) | [(i & cand & content & Hd & Hesc & Hf & ->) | [_ ->]]];
    [done| |done].
  intros _. destruct Hd as (_ & Hi & Hbefore).
  exists i, cand, content.
  split; [done|]. split; [intros j cj Hj; apply Hbefore; lia|].
  split; [unfold escapesRoot in Hesc; by apply negb_false_iff in Hesc|].
  split; [done|]. split; done.
Qed.

Lemma X4_served_file_is_checked_witness :
  let req := mkRequest "GET" (Some ("/" +:+ Serve.vsPrefix +:+ "res.json")) in
  classify (pathnameOf req) = None ∧
  statusCode (Serve.handler assetEnv 0 req) = 200 ∧
  ∃ i cand content,
    Serve.relCandidates (relPathOf (pathnameOf req)) !! i = Some cand ∧
    files assetEnv !! NodePath.join [ROOT assetEnv; cand] = Some (File content) ∧
    body (Serve.handler assetEnv 0 req) = content.
Proof.
  split; [reflexivity|]. split; [by vm_compute|].
  destruct (X4_served_file_is_checked assetEnv 0
              (mkRequest "GET" (Some ("/" +:+ Serve.vsPrefix +:+ "res.json")))
              eq_refl ltac:(by vm_compute))
    as (i & cand & content & H1 & _ & _ & H4 & _ & H6).
  exists i, cand, content. exact (conj H1 (conj H4 H6)).
Defined.

(** X5.  For a request that matches no mock rule the status is 403 exactly
    when the first candidate that is not skipped fails the containment
    check, and 404 exactly when every candidate is skipped; the 404 body is
    [Not Found: ] followed by the path of the request and no header is
    set. *)
Theorem X5_forbidden_and_not_found (e : Env) (now : Z) (req : Request) :
  classify (pathnameOf req) = None →
  let cands := Serve.relCandidates (relPathOf (pathnameOf req)) in
  let r := Serve.handler e now req in
  (statusCode r = 403 ↔
   ∃ i cand, cands !! i = Some cand ∧ escapesRoot (ROOT e) cand = true ∧
             ∀ j cj, j < i → cands !! j = Some cj → skipped e cj) ∧
  (statusCode r = 404 ↔ ∀ j cj, cands !! j = Some cj → skipped e cj) ∧
  (statusCode r = 404 →
   body r = "Not Found: " +:+ pathnameOf req ∧ headers r = ∅) ∧
  (statusCode r = 200 ∨ statusCode r = 403 ∨ statusCode r = 404).
Proof.
  intros Hc cands r. subst cands r. rewrite serve_static by done.
  set (cands := Serve.relCandidates (relPathOf (pathnameOf req))).
  destruct (tryCandidate_cases e (pathnameOf req) cands 0)
    as [(i & cand & Hd & Hesc & Hr) | [(i & cand & content & Hd & Hesc & Hf & Hr) | [Hall Hr]]];
    rewrite Hr.
  - destruct Hd as (_ & Hi & Hbefore).
    split; [split; [|done]|].
    { intros _. exists i, cand. split; [done|]. split; [done|].
      intros j cj Hj. apply Hbefore. lia. }
    split; [split; [done|]|].
    { intros Hskip. destruct (Hskip i cand Hi) as [Hno _]. by rewrite Hesc in Hno. }
    split; [done|]. by right; left.
  - destruct Hd as (_ & Hi & Hbefore).
    split; [split; [done|]|].
    { intros (i' & cand' & Hi' & Hesc' & Hbefore').
      destruct (Nat.lt_trichotomy i i') as [Hlt | [-> | Hgt]].
      - destruct (Hbefore' i cand Hlt Hi) as [_ Hnofile]. by destruct (Hnofile content).
      - rewrite Hi in Hi'. injection Hi' as <-. by rewrite Hesc in Hesc'.
      - destruct (Hbefore i' cand' ltac:(lia) Hi') as [Hno _]. by rewrite Hesc' in Hno. }
    split; [split; [done|]|].
    { intros Hskip. destruct (Hskip i cand Hi) as [_ Hnofile]. by destruct (Hnofile content). }
    split; [done|]. by left.
  - split; [split; [done|]|].
    { intros (i & cand & Hi & Hesc & _).
      destruct (Hall i cand ltac:(lia) Hi) as [Hno _]. by rewrite Hesc in Hno. }
    split; [split; [|done]|].
    { intros _ j cj. apply Hall. lia. }
    split; [done|]. by right; right.
Qed.

Lemma X5_forbidden_and_not_found_witness :
  let req := mkRequest "GET" (Some "/missing.css?v=1") in
  classify (pathnameOf req) = None ∧
  statusCode (Serve.handler demoEnv 0 req) = 404 ∧
  body (Serve.handler demoEnv 0 req) = "Not Found: /missing.css".
Proof.
  split; [reflexivity|].
  pose proof (X5_forbidden_and_not_found demoEnv 0
                (mkRequest "GET" (Some "/missing.css?v=1")) eq_refl) as (_ & _ & H & _).
  split; [by vm_compute|]. exact (proj1 (H ltac:(by vm_compute))).
Defined.

(** ** The two variants *)

(** X6.  The fallback candidates of [serve.js] only come into play where
    the earlier variant answers 404: the two handlers give the same response
    whenever a mock rule matches, or the relative path is outside the asset
    tree, or the earlier variant answers with a status other than 404. *)
Theorem X6_serve_extends_legacy (e : Env) (now : Z) (req : Request) :
  is_Some (classify (pathnameOf req)) ∨
  startsWith (relPathOf (pathnameOf req)) Serve.vsPrefix = false ∨
  statusCode (Legacy.handler e now req) ≠ 404 →
  Serve.handler e now req = Legacy.handler e now req.
Proof.
  destruct (classify (pathnameOf req)) as [r|] eqn:Hc.
  { intros _. by rewrite (serve_mock e now req r), (legacy_mock e now req r). }
  rewrite serve_static, legacy_static by done.
  rewrite tryCandidate_unfold_at, relCandidates_head.
  intros [[r Hr] | [Hvs | Hstatus]]; [done | |].
  - rewrite relCandidates_other by done.
    by rewrite (tryCandidate_unfold_at _ _ _ (0 + 1)).
  - destruct (tryOne_cases e (relPathOf (pathnameOf req)) (notFound (pathnameOf req)))
      as [[Hesc Hr] | [[Hesc (content & Hf & Hr)] | [Hskip Hr]]].
    + by rewrite Hr, tryOne_forbidden.
    + by rewrite Hr, (tryOne_file e _ content).
    + by rewrite Hr in Hstatus.
Qed.

Lemma X6_serve_extends_legacy_witness :
  let req := mkRequest "GET" (Some ("/" +:+ Serve.vsPrefix +:+ "desktop/res.json")) in
  startsWith (relPathOf (pathnameOf req)) Serve.vsPrefix = true ∧
  statusCode (Legacy.handler assetEnv 0 req) ≠ 404 ∧
  Serve.handler assetEnv 0 req = Legacy.handler assetEnv 0 req.
Proof.
  split; [reflexivity|].
  assert (H : statusCode (Legacy.handler assetEnv 0
                (mkRequest "GET" (Some ("/" +:+ Serve.vsPrefix +:+ "desktop/res.json")))) ≠ 404).
  { by vm_compute. }
  split; [exact H|].
  exact (X6_serve_extends_legacy assetEnv 0 _ (or_intror (or_intror H))).
Defined.

(** ** The path of a request *)

Lemma split0_cons (sep c : ascii) (s : string) :
  split0 sep (String c s) = if Ascii.eqb c sep then EmptyString else String c (split0 sep s).
Proof.
  unfold split0. simpl. destruct (Ascii.eqb c sep); [done|]. by destruct (split sep s).
Qed.

Lemma split0_no_sep (sep : ascii) (s : string) : hasChar sep (split0 sep s) = false.
Proof.
  induction s as [|c s IH]; [done|]. rewrite split0_cons.
  destruct (Ascii.eqb c sep) eqn:Hc; [done|]. simpl. by rewrite Hc, IH.
Qed.

Lemma request_path_facts (req : Request) :
  pathnameOf req ≠ "" ∧
  includes (pathnameOf req) "?" = false ∧
  relPathOf (pathnameOf req) ≠ "".
Proof.
  unfold pathnameOf. set (u := JsString.or (url req) "").
  pose proof (split0_no_sep "?" u) as Hq.
  destruct (split0 "?" u) as [|c p] eqn:Hp.
  - repeat split; done.
  - change (JsString.or (Some (String c p)) "/") with (String c p).
    split; [done|]. split; [by rewrite includes_char|].
    unfold relPathOf. destruct (isRoot (String c p)) eqn:Hroot; [done|].
    unfold stripLeadingSlash.
    destruct (Ascii.eqb c "/") eqn:Hc.
    + apply Ascii.eqb_eq in Hc as ->. destruct p as [|d p]; [done|].
      by destruct (ascii_dec "/" "/").
    + apply Ascii.eqb_neq in Hc.
      destruct c as [[] [] [] [] [] [] [] []]; done.
Qed.


(** ** The mock rules *)

(** X8.  The CORS header is sent exactly on the responses of the mock
    rules: a request that matches a rule gets status 200 with
    [Access-Control-Allow-Origin: *], computed without the root and the file
    system; a request that matches none never gets the header, whether the
    answer is a file, 403 or 404. *)
Theorem X8_cors_only_on_mocks (e : Env) (now : Z) (req : Request) :
  (is_Some (classify (pathnameOf req)) →
   statusCode (Serve.handler e now req) = 200 ∧
   headers (Serve.handler e now req) !! "Access-Control-Allow-Origin" = Some "*" ∧
   ∀ root fsys,
     Serve.handler (mkEnv root fsys (cache e)) now req = Serve.handler e now req) ∧
  (classify (pathnameOf req) = None →
   headers (Serve.handler e now req) !! "Access-Control-Allow-Origin" = None).
Proof.
  split.
  - intros [r Hr]. rewrite (serve_mock e now req r) by done.
    split; [by destruct r|]. split; [destruct r; apply sendMock_cors|].
    intros root fsys. by rewrite (serve_mock _ now req r).
  - intros Hc. rewrite serve_static by done.
    destruct (tryCandidate_cases e (pathnameOf req)
                (Serve.relCandidates (relPathOf (pathnameOf req))) 0)
      as [(i & cand & _ & _ & ->) | [(i & cand & content & _ & _ & _ & ->) | [_ ->]]];
      [done | | done].
    unfold sendFile. cbn [headers]. by rewrite lookup_insert_ne.
Qed.

Lemma X8_cors_only_on_mocks_witness :
  is_Some (classify (pathnameOf (mkRequest "POST" (Some "/gs2c/saveSettings.do")))) ∧
  headers (Serve.handler demoEnv 0 (mkRequest "POST" (Some "/gs2c/saveSettings.do")))
    !! "Access-Control-Allow-Origin" = Some "*" ∧
  classify (pathnameOf (mkRequest "GET" (Some "/index.html"))) = None ∧
  headers (Serve.handler demoEnv 0 (mkRequest "GET" (Some "/index.html")))
    !! "Access-Control-Allow-Origin" = None.
Proof.
  assert (H1 : is_Some (classify (pathnameOf (mkRequest "POST" (Some "/gs2c/saveSettings.do")))))
    by (by exists SaveSettings).
  split; [exact H1|].
  split; [exact (proj1 (proj2 (proj1 (X8_cors_only_on_mocks demoEnv 0 _) H1)))|].
  split; [reflexivity|].
  exact (proj2 (X8_cors_only_on_mocks demoEnv 0 (mkRequest "GET" (Some "/index.html"))) eq_refl).
Defined.

(** X9.  The saveSettings rule answers 200 with content type [text/plain]
    and exactly the loaded body, the empty body when none was loaded: here
    the fallback is the empty string, so a loaded empty file and a missing
    file give the same response. *)
Theorem X9_saveSettings_body (e : Env) (now : Z) (req : Request) :
  classify (pathnameOf req) = Some SaveSettings →
  let r := Serve.handler e now req in
  statusCode r = 200 ∧
  headers r !! "Content-Type" = Some "text/plain" ∧
  body r = cachedOrFallback (saveSettingsBody (cache e)) "".
Proof.
  intros Hc r. subst r. rewrite (serve_mock e now req SaveSettings) by done.
  cbn [mockResponse]. rewrite sendMock_status, sendMock_contentType, sendMock_body.
  repeat split. by destruct (saveSettingsBody (cache e)) as [[|c s]|].
Qed.

Lemma X9_saveSettings_body_witness :
  let req := mkRequest "POST" (Some "/gs2c/saveSettings.do") in
  classify (pathnameOf req) = Some SaveSettings ∧
  headers (Serve.handler demoEnv 0 req) !! "Content-Type" = Some "text/plain" ∧
  body (Serve.handler demoEnv 0 req) = "".
Proof.
  split; [reflexivity|].
  pose proof (X9_saveSettings_body demoEnv 0 (mkRequest "POST" (Some "/gs2c/saveSettings.do"))
                eq_refl) as (_ & H2 & H3).
  exact (conj H2 H3).
Defined.

(** X10.  A rule whose slot holds a non-empty body answers with exactly that
    body, and the whole response is the same at every time: the timestamp
    of the reloadBalance rule appears only when its slot is unusable. *)
Theorem X10_cached_body_verbatim (e : Env) (req : Request) (r : MockRule)
    (cached : string) (t1 t2 : Z) :
  classify (pathnameOf req) = Some r →
  cachedSlot (cache e) r = Some cached →
  cached ≠ "" →
  body (Serve.handler e t1 req) = cached ∧
  Serve.handler e t1 req = Serve.handler e t2 req.
Proof.
  intros Hc Hslot Hne. rewrite !(serve_mock e _ req r) by done.
  destruct r; cbn [cachedSlot] in Hslot; try done; cbn [mockResponse];
    rewrite Hslot, sendMock_body, !(or_loaded cached) by done; done.
Qed.

Lemma X10_cached_body_verbatim_witness :
  let e := startServer "/srv/app" savedMockFiles in
  let req := mkRequest "GET" (Some "/gs2c/stats.do?x=1") in
  classify (pathnameOf req) = Some Stats ∧
  cachedSlot (cache e) Stats = Some "{}" ∧
  body (Serve.handler e 5 req) = "{}".
Proof.
  split; [reflexivity|]. split; [by vm_compute|].
  exact (proj1 (X10_cached_body_verbatim (startServer "/srv/app" savedMockFiles)
                  (mkRequest "GET" (Some "/gs2c/stats.do?x=1")) Stats "{}" 5 5
                  eq_refl ltac:(by vm_compute) ltac:(done))).
Defined.

(** X11.  The stats rule answers 200 with content type [application/json];
    when its slot is null or holds the empty string the body is the literal
    JSON object with [error] 0 and [description] OK. *)
Theorem X11_stats_fallback (e : Env) (now : Z) (req : Request) :
  classify (pathnameOf req) = Some Stats →
  statsBody (cache e) = None ∨ statsBody (cache e) = Some "" →
  let r := Serve.handler e now req in
  statusCode r = 200 ∧
  headers r !! "Content-Type" = Some "application/json" ∧
  body r = "{" +:+ dq +:+ "error" +:+ dq +:+ ":0," +:+ dq +:+ "description" +:+ dq
             +:+ ":" +:+ dq +:+ "OK" +:+ dq +:+ "}" ∧
  String.length (body r) = 30.
Proof.
  intros Hc Hslot r. subst r. rewrite (serve_mock e now req Stats) by done.
  cbn [mockResponse]. rewrite sendMock_status, sendMock_contentType, sendMock_body.
  by destruct Hslot as [-> | ->].
Qed.

Lemma X11_stats_fallback_witness :
  let req := mkRequest "POST" (Some "/gs2c/stats.do") in
  classify (pathnameOf req) = Some Stats ∧
  statsBody (cache demoEnv) = None ∧
  body (Serve.handler demoEnv 0 req) = statsFallback.
Proof.
  split; [reflexivity|]. split; [reflexivity|].
  exact (proj1 (proj2 (proj2 (X11_stats_fallback demoEnv 0
           (mkRequest "POST" (Some "/gs2c/stats.do")) eq_refl (or_introl eq_refl))))).
Defined.

(** ** Startup followed by requests *)





(** ** The candidate list *)

Lemma startsWith_literal_desktop_game (x : string) :
  startsWith (Serve.vsPrefix +:+ "desktop/game/" +:+ x) (Serve.vsPrefix +:+ "desktop/") = true.
Proof.
  apply startsWith_spec. exists ("game/" +:+ x).
  rewrite append_assoc. f_equal.
Qed.

Lemma startsWith_literal_desktop (x : string) :
  startsWith (Serve.vsPrefix +:+ "desktop/" +:+ x) (Serve.vsPrefix +:+ "desktop/") = true.
Proof. apply startsWith_spec. exists x. by rewrite append_assoc. Qed.

(** X13.  The candidate list starts with the relative path itself and has
    at most three entries; it has more than one only for a relative path
    below the asset prefix, and every further entry lies below the
    [desktop/] directory of the asset tree. *)
Theorem X13_candidate_list_shape (relPath : string) :
  let cands := Serve.relCandidates relPath in
  cands !! 0 = Some relPath ∧
  1 ≤ length cands ≤ 3 ∧
  (startsWith relPath Serve.vsPrefix = false → cands = [relPath]) ∧
  (∀ i c, 0 < i → cands !! i = Some c →
          startsWith relPath Serve.vsPrefix = true ∧
          startsWith c (Serve.vsPrefix +:+ "desktop/") = true).
Proof.
  cbv zeta. split; [apply relCandidates_head|].
  destruct (startsWith relPath Serve.vsPrefix) eqn:Hvs.
  - apply startsWith_spec in Hvs as [tail ->]. rewrite relCandidates_asset.
    destruct (startsWith tail "desktop/"), (startsWith tail "desktop/game/");
      (split; [simpl; lia|]); (split; [done|]);
      intros [|[|[|i]]] c Hi Hc; try lia; simpl in Hc; try done;
      injection Hc as <-; (split; [done|]);
      first [apply startsWith_literal_desktop | apply startsWith_literal_desktop_game].
  - rewrite relCandidates_other by done. split; [simpl; lia|]. split; [done|].
    intros [|i] c Hi Hc; [lia | done].
Qed.

Lemma X13_candidate_list_shape_witness :
  Serve.relCandidates "css/site.css" = ["css/site.css"] ∧
  startsWith (Serve.vsPrefix +:+ "desktop/res.json") (Serve.vsPrefix +:+ "desktop/") = true.
Proof.
  split.
  - exact (proj1 (proj2 (proj2 (X13_candidate_list_shape "css/site.css"))) eq_refl).
  - exact (proj2 (proj2 (proj2 (proj2 (X13_candidate_list_shape (Serve.vsPrefix +:+ "res.json"))))
                    1 (Serve.vsPrefix +:+ "desktop/res.json") ltac:(lia) eq_refl)).
Defined.

(** X14.  For a tail that starts with [game/] the two fallbacks are the
    same path, the one below [desktop/game/]: the resolver probes two
    distinct files, the second of them twice. *)
Theorem X14_game_tail_fallbacks_coincide (t : string) :
  Serve.relCandidates (Serve.vsPrefix +:+ "game/" +:+ t) =
    [Serve.vsPrefix +:+ "game/" +:+ t;
     Serve.vsPrefix +:+ "desktop/game/" +:+ t;
     Serve.vsPrefix +:+ "desktop/game/" +:+ t].
Proof.
  rewrite relCandidates_asset, withoutLeadingGame_game.
  assert (H1 : startsWith ("game/" +:+ t) "desktop/" = false) by reflexivity.
  assert (H2 : startsWith ("game/" +:+ t) "desktop/game/" = false) by reflexivity.
  rewrite H1, H2. reflexivity.
Qed.

(** ** The containment check on paths without [..] *)

Lemma split_no_sep (sep : ascii) (s : string) :
  Forall (λ seg, hasChar sep seg = false) (split sep s).
Proof.
  induction s as [|c s IH]; [by repeat constructor|]. simpl.
  destruct (Ascii.eqb c sep) eqn:Hc; [by constructor|].
  destruct (split sep s) as [|hd tl]; [repeat constructor; simpl; by rewrite Hc|].
  apply Forall_cons in IH as [Hhd Htl]. constructor; [|done]. simpl. by rewrite Hc, Hhd.
Qed.

Lemma normalizeStep_dot (a : bool) (res : list string) (seg : string) :
  seg = "" ∨ seg = "." → NodePath.normalizeStep a res seg = res.
Proof. by intros [-> | ->]. Qed.

Lemma fold_dotDotFree (a : bool) (l acc : list string) :
  Forall (λ seg, seg ≠ "..") l →
  fold_left (NodePath.normalizeStep a) l acc
  = rev (filter (λ seg, seg ≠ "" ∧ seg ≠ ".") l) ++ acc.
Proof.
  intros Hl. revert acc. induction Hl as [|x l Hx _ IH]; intros acc; [done|].
  simpl fold_left. rewrite IH.
  destruct (decide (x ≠ "" ∧ x ≠ ".")) as [Hkeep | Hdrop].
  - rewrite filter_cons_True by done. simpl rev. rewrite <- List.app_assoc. simpl.
    unfold NodePath.normalizeStep. destruct Hkeep as [H0 H1].
    apply String.eqb_neq in H0, H1, Hx. by rewrite H0, H1, Hx.
  - rewrite filter_cons_False by done. rewrite normalizeStep_dot; [done|].
    destruct (decide (x = "")) as [-> | H0]; [by left|].
    destruct (decide (x = ".")) as [-> | H1]; [by right|].
    by destruct Hdrop.
Qed.

Lemma keptSegments_clean (p : string) :
  dotDotFree p → Forall cleanSegment (keptSegments p).
Proof.
  intros Hp. unfold keptSegments. apply Forall_forall. intros seg Hseg.
  apply list_elem_of_filter in Hseg as [[H0 H1] Hin].
  unfold dotDotFree in Hp. rewrite Forall_forall in Hp.
  pose proof (split_no_sep "/" p) as Hsep. rewrite Forall_forall in Hsep.
  repeat split; [done | done | by apply Hp | by apply Hsep].
Qed.

Lemma join_app (l1 l2 : list string) :
  l1 ≠ [] → l2 ≠ [] →
  JsString.join "/" (l1 ++ l2) = JsString.join "/" l1 +:+ "/" +:+ JsString.join "/" l2.
Proof.
  intros H1 H2. induction l1 as [|x l1 IH]; [done|].
  destruct l1 as [|y l1].
  - destruct l2 as [|z l2]; [done | reflexivity].
  - change ((x :: y :: l1) ++ l2) with (x :: y :: (l1 ++ l2)).
    rewrite !join_cons2. change (y :: l1 ++ l2) with ((y :: l1) ++ l2).
    rewrite IH by done. by rewrite !append_assoc.
Qed.

(** An absolute path of clean segments with a trailing separator is a fixed
    point of [path.normalize] as well. *)
Lemma normalize_clean_trailing (l : list string) :
  l ≠ [] → Forall cleanSegment l →
  NodePath.normalize ("/" +:+ JsString.join "/" l +:+ "/")
  = "/" +:+ JsString.join "/" l +:+ "/".
Proof.
  intros Hne Hl.
  change ("/" +:+ JsString.join "/" l +:+ "/")
    with (String "/" (JsString.join "/" l +:+ String "/" EmptyString)).
  unfold NodePath.normalize.
  rewrite endsWithChar_cons by (by destruct (JsString.join "/" l)).
  rewrite endsWithChar_app by done. simpl endsWithChar at 1.
  unfold NodePath.normalizeString. simpl split. rewrite split_app. simpl fold_left.
  rewrite fold_left_app, fold_split_join by done. simpl fold_left.
  rewrite !(normalizeStep_dot _ _ "") by (by left).
  rewrite List.app_nil_r, rev_involutive.
  pose proof (join_nonempty l Hne Hl).
  simpl. by destruct (JsString.join "/" l).
Qed.

(** The result of [path.join(root, c)] for a clean absolute root and a
    candidate without [..]: the segments of the root followed by the kept
    segments of the candidate, and the trailing separator of the candidate
    if it has one. *)
Lemma join_under_root (segs : list string) (c : string) :
  Forall cleanSegment segs → c ≠ "" → dotDotFree c →
  NodePath.join ["/" +:+ JsString.join "/" segs; c] =
  match segs ++ keptSegments c with
  | [] => "/"
  | l => "/" +:+ JsString.join "/" l +:+ (if endsWithChar "/" c then "/" else "")
  end.
Proof.
  intros Hsegs Hc Hdd. unfold NodePath.join.
  change ("/" +:+ JsString.join "/" segs) with (String "/" (JsString.join "/" segs)).
  rewrite filter_cons_True by done. rewrite filter_cons_True by done. rewrite filter_nil.
  change (JsString.join "/" [String "/" (JsString.join "/" segs); c])
    with (String "/" (JsString.join "/" segs +:+ String "/" c)).
  unfold NodePath.normalize.
  rewrite endsWithChar_cons by (by destruct (JsString.join "/" segs)).
  rewrite endsWithChar_app by done.
  rewrite (endsWithChar_cons _ _ c Hc).
  unfold NodePath.normalizeString. simpl split. rewrite split_app. simpl fold_left.
  rewrite fold_left_app, fold_split_join by done.
  rewrite fold_dotDotFree by done. fold (keptSegments c).
  rewrite List.app_nil_r, rev_app_distr, !rev_involutive.
  pose proof (keptSegments_clean c Hdd) as Hkept.
  destruct (segs ++ keptSegments c) as [|x l] eqn:Hl; [reflexivity|].
  assert (Hj : JsString.join "/" (x :: l) ≠ "").
  { apply join_nonempty; [done|]. rewrite <- Hl. by apply Forall_app. }
  simpl startsWith. cbv iota. simpl negb.
  destruct (JsString.join "/" (x :: l)) as [|a s]; [done|].
  destruct (endsWithChar "/" c); [reflexivity|].
  by rewrite append_nil_r.
Qed.

Lemma root_check_dotDotFree (root c : string) :
  absoluteDir root → c ≠ "" → dotDotFree c → escapesRoot root c = false.
Proof.
  intros (segs & Hsegs & ->) Hc Hdd. unfold escapesRoot. apply negb_false_iff.
  rewrite join_under_root by done.
  pose proof (keptSegments_clean c Hdd) as Hkept.
  destruct (segs ++ keptSegments c) as [|x l] eqn:Hl.
  - apply app_eq_nil in Hl as [-> _]. reflexivity.
  - assert (Hclean : Forall cleanSegment (x :: l)) by (rewrite <- Hl; by apply Forall_app).
    assert (Hnorm : NodePath.normalize
              ("/" +:+ JsString.join "/" (x :: l) +:+ (if endsWithChar "/" c then "/" else ""))
            = "/" +:+ JsString.join "/" (x :: l) +:+ (if endsWithChar "/" c then "/" else "")).
    { destruct (endsWithChar "/" c).
      - by apply normalize_clean_trailing.
      - rewrite append_nil_r. by apply normalize_clean. }
    rewrite Hnorm, <- Hl.
    destruct segs as [|s segs]; [reflexivity|].
    destruct (keptSegments c) as [|k ks].
    + rewrite List.app_nil_r. apply startsWith_spec.
      exists (if endsWithChar "/" c then "/" else ""). by rewrite !append_assoc.
    + rewrite join_app by done. apply startsWith_spec.
      exists ("/" +:+ JsString.join "/" (k :: ks) +:+ (if endsWithChar "/" c then "/" else "")).
      by rewrite !append_assoc.
Qed.

Lemma dotDotFree_slash (a b : string) :
  dotDotFree (a +:+ String "/" b) ↔ dotDotFree a ∧ dotDotFree b.
Proof. unfold dotDotFree. rewrite split_app. apply Forall_app. Qed.

Lemma vsPrefix_vsDir (tail : string) : Serve.vsPrefix +:+ tail = vsDir +:+ String "/" tail.
Proof. reflexivity. Qed.

Lemma vsDir_dotDotFree : dotDotFree vsDir.
Proof. unfold dotDotFree. apply (bool_decide_unpack _). vm_compute. reflexivity. Qed.

Lemma vsPrefix_app_nonempty (x : string) : Serve.vsPrefix +:+ x ≠ "".
Proof. intros H. discriminate H. Qed.

Lemma literal_dotDotFree (seg : string) :
  hasChar "/" seg = false → seg ≠ ".." → dotDotFree seg.
Proof.
  intros Hfree Hseg. unfold dotDotFree. rewrite (split_free _ _ Hfree).
  by apply Forall_singleton.
Qed.

Lemma desktop_candidate_dotDotFree (tail : string) :
  dotDotFree tail → dotDotFree (Serve.vsPrefix +:+ "desktop/" +:+ tail).
Proof.
  intros Htail. rewrite vsPrefix_vsDir. apply dotDotFree_slash.
  split; [exact vsDir_dotDotFree|].
  change ("desktop/" +:+ tail) with ("desktop" +:+ String "/" tail).
  apply dotDotFree_slash. split; [|exact Htail].
  apply literal_dotDotFree; [reflexivity | discriminate].
Qed.

Lemma desktop_game_candidate_dotDotFree (w : string) :
  dotDotFree w → dotDotFree (Serve.vsPrefix +:+ "desktop/game/" +:+ w).
Proof.
  intros Hw. rewrite vsPrefix_vsDir. apply dotDotFree_slash.
  split; [exact vsDir_dotDotFree|].
  change ("desktop/game/" +:+ w) with ("desktop" +:+ String "/" ("game" +:+ String "/" w)).
  apply dotDotFree_slash. split; [apply literal_dotDotFree; [reflexivity | discriminate]|].
  apply dotDotFree_slash. split; [|exact Hw].
  apply literal_dotDotFree; [reflexivity | discriminate].
Qed.

Lemma withoutLeadingGame_dotDotFree (tail : string) :
  dotDotFree tail → dotDotFree (withoutLeadingGame tail).
Proof.
  intros Htail. destruct (startsWith tail "game/") eqn:Hg.
  - apply startsWith_spec in Hg as [t ->]. rewrite withoutLeadingGame_game.
    change ("game/" +:+ t) with ("game" +:+ String "/" t) in Htail.
    apply dotDotFree_slash in Htail. exact (proj2 Htail).
  - rewrite withoutLeadingGame_other; assumption.
Qed.

Lemma candidates_dotDotFree (relPath : string) :
  relPath ≠ "" → dotDotFree relPath →
  ∀ c, c ∈ Serve.relCandidates relPath → c ≠ "" ∧ dotDotFree c.
Proof.
  intros Hne Hdd c Hc.
  destruct (startsWith relPath Serve.vsPrefix) eqn:Hvs.
  - apply startsWith_spec in Hvs as [tail ->]. rewrite relCandidates_asset in Hc.
    assert (Htail : dotDotFree tail).
    { rewrite vsPrefix_vsDir in Hdd. apply dotDotFree_slash in Hdd. exact (proj2 Hdd). }
    pose proof (desktop_candidate_dotDotFree tail Htail) as H2.
    pose proof (desktop_game_candidate_dotDotFree _ (withoutLeadingGame_dotDotFree tail Htail))
      as H3.
    apply elem_of_app in Hc as [Hc | Hc].
    { apply list_elem_of_singleton in Hc. rewrite Hc. split; assumption. }
    apply elem_of_app in Hc as [Hc | Hc].
    + destruct (startsWith tail "desktop/"); [exfalso; exact (not_elem_of_nil _ Hc)|].
      apply list_elem_of_singleton in Hc. rewrite Hc.
      split; [apply vsPrefix_app_nonempty | assumption].
    + destruct (startsWith tail "desktop/game/"); [exfalso; exact (not_elem_of_nil _ Hc)|].
      apply list_elem_of_singleton in Hc. rewrite Hc.
      split; [apply vsPrefix_app_nonempty | assumption].
  - rewrite relCandidates_other in Hc by assumption.
    apply list_elem_of_singleton in Hc. rewrite Hc. split; assumption.
Qed.

(** X15.  The containment check has no false alarm on paths without [..]:
    under a root of the shape of [__dirname], a request whose relative path
    has no [..] segment is never answered 403, by either variant. *)
Theorem X15_no_dotdot_never_forbidden (e : Env) (now : Z) (req : Request) :
  absoluteDir (ROOT e) →
  dotDotFree (relPathOf (pathnameOf req)) →
  statusCode (Serve.handler e now req) ≠ 403 ∧
  statusCode (Legacy.handler e now req) ≠ 403.
Proof.
  intros Hroot Hdd.
  pose proof (request_path_facts req) as (_ & _ & Hrel).
  destruct (classify (pathnameOf req)) as [r|] eqn:Hc.
  { rewrite (serve_mock e now req r), (legacy_mock e now req r) by done. by destruct r. }
  split.
  - rewrite serve_static by done.
    destruct (tryCandidate_cases e (pathnameOf req)
                (Serve.relCandidates (relPathOf (pathnameOf req))) 0)
      as [(i & cand & Hd & Hesc & _) | [(i & cand & content & _ & _ & _ & ->) | [_ ->]]];
      [|done|done].
    destruct Hd as (_ & Hi & _).
    destruct (candidates_dotDotFree _ Hrel Hdd cand) as [Hne Hcd];
      [by apply list_elem_of_lookup_2 with i|].
    by rewrite (root_check_dotDotFree _ _ Hroot Hne Hcd) in Hesc.
  - rewrite legacy_static by done.
    destruct (tryOne_cases e (relPathOf (pathnameOf req)) (notFound (pathnameOf req)))
      as [[Hesc _] | [[_ (content & _ & ->)] | [_ ->]]]; [|done|done].
    by rewrite (root_check_dotDotFree _ _ Hroot Hrel Hdd) in Hesc.
Qed.

Lemma X15_no_dotdot_never_forbidden_witness :
  let req := mkRequest "GET" (Some "/css//./missing.css") in
  absoluteDir (ROOT siteEnv) ∧
  dotDotFree (relPathOf (pathnameOf req)) ∧
  statusCode (Serve.handler siteEnv 0 req) ≠ 403.
Proof.
  assert (Hroot : absoluteDir (ROOT siteEnv)).
  { exists ["srv"; "app"]. split; [|reflexivity]. repeat constructor; discriminate. }
  assert (Hdd : dotDotFree (relPathOf (pathnameOf (mkRequest "GET" (Some "/css//./missing.css"))))).
  { unfold dotDotFree. by repeat constructor. }
  split; [exact Hroot|]. split; [exact Hdd|].
  exact (proj1 (X15_no_dotdot_never_forbidden siteEnv 0
                  (mkRequest "GET" (Some "/css//./missing.css")) Hroot Hdd)).
Defined.

(** ** Files that exist *)

Lemma serve_primary_file (e : Env) (now : Z) (req : Request) (content : string) :
  classify (pathnameOf req) = None →
  escapesRoot (ROOT e) (relPathOf (pathnameOf req)) = false →
  files e !! NodePath.join [ROOT e; relPathOf (pathnameOf req)] = Some (File content) →
  Serve.handler e now req =
    sendFile (NodePath.join [ROOT e; relPathOf (pathnameOf req)]) content ∧
  Legacy.handler e now req =
    sendFile (NodePath.join [ROOT e; relPathOf (pathnameOf req)]) content.
Proof.
  intros Hc Hesc Hfile. split.
  - rewrite serve_static by done.
    apply (tryCandidate_first_file _ _ _ 0 (relPathOf (pathnameOf req)));
      [apply relCandidates_head | lia | done | done].
  - rewrite legacy_static by done. by apply tryOne_file.
Qed.

(** X16.  A regular file that exists at the place a request names is
    served: under a root of the shape of [__dirname], when the relative path
    has no [..] segment and matches no mock rule, both variants answer 200
    with the bytes of the file at the joined path, before any fallback
    candidate is looked at. *)
Theorem X16_existing_file_is_served (e : Env) (now : Z) (req : Request) (content : string) :
  absoluteDir (ROOT e) →
  classify (pathnameOf req) = None →
  dotDotFree (relPathOf (pathnameOf req)) →
  files e !! NodePath.join [ROOT e; relPathOf (pathnameOf req)] = Some (File content) →
  statusCode (Serve.handler e now req) = 200 ∧
  body (Serve.handler e now req) = content ∧
  Legacy.handler e now req = Serve.handler e now req.
Proof.
  intros Hroot Hc Hdd Hfile.
  pose proof (request_path_facts req) as (_ & _ & Hrel).
  destruct (serve_primary_file e now req content Hc
              (root_check_dotDotFree _ _ Hroot Hrel Hdd) Hfile) as [-> ->].
  done.
Qed.

Lemma X16_existing_file_is_served_witness :
  let req := mkRequest "GET" (Some "/css/./site.css?v=3") in
  absoluteDir (ROOT siteEnv) ∧
  classify (pathnameOf req) = None ∧
  dotDotFree (relPathOf (pathnameOf req)) ∧
  files siteEnv !! NodePath.join [ROOT siteEnv; relPathOf (pathnameOf req)]
    = Some (File "body{}") ∧
  body (Serve.handler siteEnv 0 req) = "body{}".
Proof.
  assert (Hroot : absoluteDir (ROOT siteEnv)).
  { exists ["srv"; "app"]. split; [|reflexivity]. repeat constructor; discriminate. }
  assert (Hdd : dotDotFree (relPathOf (pathnameOf (mkRequest "GET" (Some "/css/./site.css?v=3"))))).
  { unfold dotDotFree. by repeat constructor. }
  split; [exact Hroot|]. split; [reflexivity|]. split; [exact Hdd|].
  split; [by vm_compute|].
  exact (proj1 (proj2 (X16_existing_file_is_served siteEnv 0
                         (mkRequest "GET" (Some "/css/./site.css?v=3")) "body{}" Hroot eq_refl Hdd
                         ltac:(by vm_compute)))).
Defined.

(** ** Content types *)

Lemma MIME_nonempty (ext v : string) : MIME !! ext = Some v → v ≠ "".
Proof.
  unfold MIME. intros H. apply elem_of_list_to_map_2 in H.
  repeat (apply elem_of_cons in H as [[= -> ->] | H]; [done|]).
  by apply elem_of_nil in H.
Qed.

Lemma sendFile_contentType (p c : string) :
  headers (sendFile p c) !! "Content-Type" =
  Some (default "application/octet-stream" (MIME !! NodePath.extname p)).
Proof.
  unfold sendFile. cbn [headers]. rewrite lookup_insert_eq. f_equal.
  destruct (MIME !! NodePath.extname p) as [v|] eqn:Hv; [|done].
  apply MIME_nonempty in Hv. by apply or_loaded.
Qed.

Lemma lastDot_none (s : string) : hasChar "." s = false → NodePath.lastDot s = None.
Proof.
  induction s as [|c s IH]; [done|]. simpl.
  intros [Hc Hs]%orb_false_iff. by rewrite (IH Hs), Hc.
Qed.

Lemma lastDot_app (stem ext : string) :
  hasChar "." ext = false →
  NodePath.lastDot (stem +:+ String "." ext) = Some (String.length stem).
Proof.
  intros Hext. induction stem as [|c stem IH].
  - rewrite append_nil_l. simpl. by rewrite (lastDot_none _ Hext).
  - rewrite append_cons. simpl. by rewrite IH.
Qed.

Lemma filter_nonempty_clean (l : list string) :
  Forall cleanSegment l → filter (λ a, a ≠ "") l = l.
Proof.
  induction 1 as [|x l Hx _ IH]; [done|].
  rewrite filter_cons_True by apply Hx. by rewrite IH.
Qed.

(** The extension of an absolute path of clean segments whose last one is
    [stem.ext]. *)
Lemma extname_named (l : list string) (stem ext : string) :
  Forall cleanSegment l →
  last l = Some (stem +:+ "." +:+ ext) →
  stem ≠ "" → hasChar "." ext = false →
  NodePath.extname ("/" +:+ JsString.join "/" l) = "." +:+ ext.
Proof.
  intros Hl Hlast Hstem Hext.
  assert (Hne : l ≠ []) by (by intros ->).
  change ("/" +:+ JsString.join "/" l) with (String "/" (JsString.join "/" l)).
  unfold NodePath.extname. simpl split. rewrite split_join by done.
  rewrite filter_cons_False by (by intros H; apply H).
  rewrite filter_nonempty_clean by done.
  apply last_Some in Hlast as [l' ->]. rewrite rev_app_distr. simpl rev. simpl app.
  change (stem +:+ "." +:+ ext) with (stem +:+ String "." ext).
  cbv beta iota. rewrite lastDot_app by done.
  destruct stem as [|c stem]; [done|]. simpl String.length. cbv beta iota.
  rewrite Forall_app, Forall_singleton in Hl. destruct Hl as [_ (_ & _ & Hdd & _)].
  change (String c stem +:+ "." +:+ ext) with (String c stem +:+ String "." ext) in Hdd.
  apply String.eqb_neq in Hdd. rewrite Hdd.
  apply (slice_app (String c stem) (String "." ext)).
Qed.

Lemma split_join_clean (rel : list string) :
  cleanPath rel → split "/" (JsString.join "/" rel) = rel.
Proof. intros [Hclean Hne]. by apply split_join. Qed.

Lemma cleanPath_dotDotFree (rel : list string) :
  cleanPath rel → dotDotFree (JsString.join "/" rel).
Proof.
  intros Hrel. unfold dotDotFree. rewrite split_join_clean by done.
  destruct Hrel as [Hclean _]. eapply Forall_impl; [exact Hclean|].
  by intros seg (_ & _ & H & _).
Qed.

Lemma join_clean_path (segs rel : list string) :
  Forall cleanSegment segs → cleanPath rel →
  NodePath.join ["/" +:+ JsString.join "/" segs; JsString.join "/" rel]
  = "/" +:+ JsString.join "/" (segs ++ rel).
Proof.
  intros Hsegs Hrel. pose proof Hrel as [Hclean Hne].
  rewrite join_under_root; [| done | by apply join_nonempty | by apply cleanPath_dotDotFree].
  unfold keptSegments. rewrite split_join_clean by done.
  assert (Hkeep : filter (λ seg, seg ≠ "" ∧ seg ≠ ".") rel = rel).
  { clear Hne Hrel. induction Hclean as [|x l Hx _ IH]; [done|].
    rewrite filter_cons_True by (split; apply Hx). by rewrite IH. }
  rewrite Hkeep, endsWithChar_join by done.
  destruct (segs ++ rel) as [|x l] eqn:Hl.
  - apply app_eq_nil in Hl as [_ ->]. done.
  - by rewrite append_nil_r.
Qed.

Lemma relPathOf_clean (rel : list string) :
  cleanPath rel → relPathOf ("/" +:+ JsString.join "/" rel) = JsString.join "/" rel.
Proof.
  intros [Hclean Hne]. pose proof (join_nonempty rel Hne Hclean) as Hj.
  change ("/" +:+ JsString.join "/" rel) with (String "/" (JsString.join "/" rel)).
  unfold relPathOf.
  destruct (isRoot (String "/" (JsString.join "/" rel))) eqn:Hroot; [|reflexivity].
  unfold isRoot in Hroot.
  apply orb_true_iff in Hroot as [Hroot | Hroot];
    [apply orb_true_iff in Hroot as [Hroot | Hroot]|];
    apply String.eqb_eq in Hroot.
  - injection Hroot as Hroot. by destruct Hj.
  - discriminate Hroot.
  - by injection Hroot as ->.
Qed.

(** X17.  A file is served with the content type of its extension: for a
    request path of clean segments whose last one is [stem.ext], under a
    root of the shape of [__dirname], an existing regular file is answered
    200 with its bytes and with the entry of the MIME table for [.ext],
    compared case-sensitively, or [application/octet-stream] when the table
    has no such entry; both variants agree. *)
Theorem X17_content_type_by_extension (e : Env) (now : Z) (req : Request)
    (rel : list string) (stem ext content : string) :
  absoluteDir (ROOT e) →
  cleanPath rel →
  last rel = Some (stem +:+ "." +:+ ext) →
  stem ≠ "" → hasChar "." ext = false →
  pathnameOf req = "/" +:+ JsString.join "/" rel →
  classify (pathnameOf req) = None →
  files e !! NodePath.join [ROOT e; JsString.join "/" rel] = Some (File content) →
  let r := Serve.handler e now req in
  statusCode r = 200 ∧
  body r = content ∧
  headers r !! "Content-Type" =
    Some (default "application/octet-stream" (MIME !! ("." +:+ ext))) ∧
  Legacy.handler e now req = r.
Proof.
  intros Hroot Hrel Hlast Hstem Hext Hpath Hc Hfile r. subst r.
  assert (Hrp : relPathOf (pathnameOf req) = JsString.join "/" rel).
  { rewrite Hpath. by apply relPathOf_clean. }
  assert (Hdd : dotDotFree (relPathOf (pathnameOf req))).
  { rewrite Hrp. by apply cleanPath_dotDotFree. }
  pose proof (request_path_facts req) as (_ & _ & Hne).
  destruct (serve_primary_file e now req content Hc
              (root_check_dotDotFree _ _ Hroot Hne Hdd)) as [-> ->];
    [by rewrite Hrp|].
  rewrite sendFile_status, sendFile_body, sendFile_contentType, Hrp.
  destruct Hroot as (segs & Hsegs & Hroot). rewrite Hroot.
  rewrite join_clean_path by done.
  rewrite (extname_named (segs ++ rel) stem ext); [done | | | done | done].
  - apply Forall_app. split; [done | apply Hrel].
  - destruct Hrel as [_ Hne']. rewrite last_app. by rewrite Hlast.
Qed.

Lemma X17_content_type_by_extension_witness :
  absoluteDir (ROOT siteEnv) ∧
  files siteEnv !! NodePath.join [ROOT siteEnv; JsString.join "/" ["css"; "site.css"]]
    = Some (File "body{}") ∧
  headers (Serve.handler siteEnv 0 (mkRequest "GET" (Some "/css/site.css")))
    !! "Content-Type" = Some "text/css" ∧
  headers (Serve.handler siteEnv 0 (mkRequest "GET" (Some "/img/LOGO.PNG")))
    !! "Content-Type" = Some "application/octet-stream".
Proof.
  assert (Hroot : absoluteDir (ROOT siteEnv)).
  { exists ["srv"; "app"]. split; [|reflexivity]. repeat constructor; discriminate. }
  split; [exact Hroot|]. split; [by vm_compute|]. split.
  - refine (proj1 (proj2 (proj2 (X17_content_type_by_extension siteEnv 0
              (mkRequest "GET" (Some "/css/site.css")) ["css"; "site.css"] "site" "css" "body{}"
              Hroot _ eq_refl _ eq_refl eq_refl eq_refl _)))).
    + split; [repeat constructor; discriminate | done].
    + done.
    + by vm_compute.
  - refine (proj1 (proj2 (proj2 (X17_content_type_by_extension siteEnv 0
              (mkRequest "GET" (Some "/img/LOGO.PNG")) ["img"; "LOGO.PNG"] "LOGO" "PNG" "png"
              Hroot _ eq_refl _ eq_refl eq_refl eq_refl _)))).
    + split; [repeat constructor; discriminate | done].
    + done.
    + by vm_compute.
Defined.

(** ** Paths that are not regular files *)

(** X18.  Outside the asset tree there is no fallback and no directory
    index: when the path of a request passes the containment check but is
    absent or not a regular file (a directory, say, even one that holds an
    [index.html]), both variants answer 404 with the body [Not Found: ]
    followed by the path. *)
Theorem X18_not_a_file_is_not_found (e : Env) (now : Z) (req : Request) :
  classify (pathnameOf req) = None →
  startsWith (relPathOf (pathnameOf req)) Serve.vsPrefix = false →
  skipped e (relPathOf (pathnameOf req)) →
  Serve.handler e now req = notFound (pathnameOf req) ∧
  Legacy.handler e now req = notFound (pathnameOf req) ∧
  statusCode (Serve.handler e now req) = 404 ∧
  body (Serve.handler e now req) = "Not Found: " +:+ pathnameOf req.
Proof.
  intros Hc Hvs Hskip.
  assert (Hs : Serve.handler e now req = notFound (pathnameOf req)).
  { rewrite serve_static, relCandidates_other by done.
    apply tryCandidate_exhausted. intros [|j] cj Hj; [by injection Hj as <- | done]. }
  split; [done|]. split; [|by rewrite Hs].
  rewrite legacy_static by done. by apply tryOne_skipped.
Qed.

Lemma X18_not_a_file_is_not_found_witness :
  let req := mkRequest "GET" (Some "/docs") in
  classify (pathnameOf req) = None ∧
  files siteEnv !! "/srv/app/docs/index.html" = Some (File "<html>docs</html>") ∧
  files siteEnv !! "/srv/app/docs" = Some NotFile ∧
  Serve.handler siteEnv 0 req = notFound "/docs".
Proof.
  split; [reflexivity|]. split; [by vm_compute|]. split; [by vm_compute|].
  refine (proj1 (X18_not_a_file_is_not_found siteEnv 0 (mkRequest "GET" (Some "/docs"))
                   eq_refl eq_refl _)).
  split; [by vm_compute|]. intros content. by vm_compute.
Defined.
